(** * cppdevenv: the toolchain build engine (weaver), checked against its code

    A shallow embedding of the Python sources

      - [src/weaver/utils.py]               (module [Utils])
      - [src/weaver/build-gnu-toolchain.py] (module [Weaver])
      - [src/build-gnu-toolchain.py]        (module [Script])

    with [hashlib.sha256] in module [Sha256] and the concrete worlds and
    classes of the examples in module [Inputs].

    Python objects are values of [pyval]; a function that can raise returns
    an [outcome]; a function that touches the process table, the working
    directory or the directory stack is a computation [M world A] over an
    explicit [world]; the class attributes that the accessors of
    [MakeProject] update in place live in a store of list objects.  The
    properties follow the definitions. *)

From Stdlib Require Import ZArith List Bool Ascii String Lia.
From stdpp Require Import base option list strings pretty gmap sorting.

Import ListNotations.
Set Warnings "-register-all".
Set Default Proof Using "Type".
Local Open Scope string_scope.
Local Open Scope list_scope.
Local Open Scope Z_scope.

(** ** Python values and exceptions *)

(** The values that occur in the modelled functions.  [PyPath] is a
    [pathlib.PurePath], [PyCompleted] an instance of
    [subprocess.CompletedProcess] with its four attributes. *)
Inductive pyval : Type :=
| PyNone
| PyBool (b : bool)
| PyInt (n : Z)
| PyStr (s : string)
| PyBytes (s : string)
| PyPath (s : string)
| PyList (l : list pyval)
| PyDict (d : list (string * pyval))
| PyCompleted (args returncode stdout stderr : pyval).

(** Keyword arguments, in call order. *)
Definition kwargs := list (string * pyval).

Inductive exn : Type :=
| TypeError
| IndexError
| ValueError
| UnboundLocalError
| KeyError
| AttributeError
| FileNotFoundError (errno : Z) (strerror : string)
| OSError (errno : Z) (strerror : string).

Inductive outcome (A : Type) : Type :=
| Returned (a : A)
| Raised (e : exn).
Arguments Returned {A} a.
Arguments Raised {A} e.

Definition returned {A} (o : outcome A) : bool :=
  match o with Returned _ => true | Raised _ => false end.

(** [bool(v)] for the values above. *)
Definition py_truth (v : pyval) : bool :=
  match v with
  | PyNone => false
  | PyBool b => b
  | PyInt n => negb (Z.eqb n 0)
  | PyStr s | PyBytes s => negb (String.eqb s "")
  | PyList l => negb (Nat.eqb (length l) 0)
  | PyDict d => negb (Nat.eqb (length d) 0)
  | PyPath _ | PyCompleted _ _ _ _ => true
  end.

(** [isinstance(v, int)]: [bool] is a subclass of [int]. *)
Definition is_int (v : pyval) : bool :=
  match v with PyInt _ | PyBool _ => true | _ => false end.

Definition join (sep : string) (l : list string) : string :=
  match l with
  | [] => ""
  | x :: r => fold_left (fun acc y => acc +:+ sep +:+ y) r x
  end.

(** [repr(v)]; strings are quoted without escapes, which is what Python
    prints for text free of quotes, backslashes and control characters. *)
Fixpoint py_repr (v : pyval) : string :=
  match v with
  | PyNone => "None"
  | PyBool true => "True"
  | PyBool false => "False"
  | PyInt n => pretty n
  | PyStr s => "'" +:+ s +:+ "'"
  | PyBytes s => "b'" +:+ s +:+ "'"
  | PyPath s => "PurePosixPath('" +:+ s +:+ "')"
  | PyList l => "[" +:+ join ", " (map py_repr l) +:+ "]"
  | PyDict d =>
      "{" +:+ join ", "
        (map (fun kv => match kv with
                        | (k, x) => "'" +:+ k +:+ "': " +:+ py_repr x
                        end) d) +:+ "}"
  | PyCompleted a r o e =>
      "CompletedProcess(args=" +:+ py_repr a +:+ ", returncode=" +:+ py_repr r
        +:+ match o with PyNone => "" | _ => ", stdout=" +:+ py_repr o end
        +:+ match e with PyNone => "" | _ => ", stderr=" +:+ py_repr e end
        +:+ ")"
  end.

(** [str(v)], also what an f-string field [{v}] renders. *)
Definition py_str (v : pyval) : string :=
  match v with
  | PyStr s | PyPath s => s
  | _ => py_repr v
  end.

(** Dictionaries keep insertion order. *)
Fixpoint dict_get (k : string) (d : kwargs) : option pyval :=
  match d with
  | [] => None
  | (k', v) :: r => if String.eqb k k' then Some v else dict_get k r
  end.

Fixpoint dict_set (k : string) (v : pyval) (d : kwargs) : kwargs :=
  match d with
  | [] => [(k, v)]
  | (k', v') :: r =>
      if String.eqb k k' then (k', v) :: r else (k', v') :: dict_set k v r
  end.

Definition dict_has (k : string) (d : kwargs) : bool :=
  match dict_get k d with Some _ => true | None => false end.

(** [a | b] on dictionaries: the keys of [a] in order, then the new keys of
    [b]; on a shared key the value of [b] wins. *)
Definition dict_merge (a b : kwargs) : kwargs :=
  fold_left (fun acc kv => dict_set (fst kv) (snd kv) acc) b a.

(** The binary operator [a | b]. *)
Definition py_bitor (a b : pyval) : outcome pyval :=
  match a, b with
  | PyDict x, PyDict y => Returned (PyDict (dict_merge x y))
  | PyBool x, PyBool y => Returned (PyBool (x || y))
  | PyInt x, PyInt y => Returned (PyInt (Z.lor x y))
  | PyBool x, PyInt y => Returned (PyInt (Z.lor (Z.b2z x) y))
  | PyInt x, PyBool y => Returned (PyInt (Z.lor x (Z.b2z y)))
  | _, _ => Raised TypeError
  end.

(** ** Computations: state passing with exceptions *)

Definition M (S A : Type) : Type := S -> outcome A * S.

Definition ret {S A} (a : A) : M S A := fun s => (Returned a, s).
Definition raise {S A} (e : exn) : M S A := fun s => (Raised e, s).
Definition lift {S A} (o : outcome A) : M S A := fun s => (o, s).

Definition bind {S A B} (m : M S A) (k : A -> M S B) : M S B :=
  fun s =>
    match m s with
    | (Returned a, s') => k a s'
    | (Raised e, s') => (Raised e, s')
    end.

Notation "'let*' x ':=' m 'in' k" := (bind m (fun x => k))
  (at level 10, x name, m at level 100, k at level 200,
   format "'[v' 'let*'  x  ':='  m  'in' '/' k ']'").

Fixpoint mapM {S A B} (f : A -> M S B) (l : list A) : M S (list B) :=
  match l with
  | [] => ret []
  | x :: r => let* y := f x in let* ys := mapM f r in ret (y :: ys)
  end.

(** Argument binding of a call with positional values [pos] and keywords
    [kw] against the parameter names [params]: positional values fill the
    names in order, a keyword must name a parameter that is not bound yet.
    Every violation is a [TypeError]. *)
Fixpoint bind_positional (params : list string) (pos : list pyval)
  : outcome kwargs :=
  match pos, params with
  | [], _ => Returned []
  | _ :: _, [] => Raised TypeError
  | v :: pos', p :: params' =>
      match bind_positional params' pos' with
      | Returned b => Returned ((p, v) :: b)
      | Raised e => Raised e
      end
  end.

Fixpoint bind_keywords (params : list string) (bound kw : kwargs)
  : outcome kwargs :=
  match kw with
  | [] => Returned bound
  | (k, v) :: kw' =>
      if negb (existsb (String.eqb k) params) then Raised TypeError
      else if dict_has k bound then Raised TypeError
      else bind_keywords params (bound ++ [(k, v)]) kw'
  end.

Definition bind_call (params : list string) (pos : list pyval) (kw : kwargs)
  : outcome kwargs :=
  match bind_positional params pos with
  | Returned b => bind_keywords params b kw
  | Raised e => Raised e
  end.

(** [a / b] on [pathlib.PurePath], for a relative [b]. *)
Definition path_join (a b : string) : string := a +:+ "/" +:+ b.

Definition path_div (a b : pyval) : outcome pyval :=
  match a, b with
  | PyPath x, PyStr y | PyPath x, PyPath y => Returned (PyPath (path_join x y))
  | _, _ => Raised TypeError
  end.

(** [l.pop()] on a non-empty list: the last element and the rest. *)
Definition list_pop {A} (l : list A) : option (A * list A) :=
  match rev l with
  | [] => None
  | x :: r => Some (x, rev r)
  end.

(** ** [src/weaver/utils.py] *)

Module Utils.

Definition SUCCESS : Z := 0.
Definition FAILURE : Z := 1.

(** An execution result: the four attributes of [CompletedProcess]. *)
Record Ret : Type := mkRet {
  args : pyval;
  returncode : pyval;
  stdout : pyval;
  stderr : pyval
}.

(** [subprocess.CompletedProcess.__init__(self, args, returncode,
    stdout=None, stderr=None)]. *)
Definition CompletedProcess_init (pos : list pyval) (kw : kwargs)
  : outcome Ret :=
  match bind_call ["args"; "returncode"; "stdout"; "stderr"] pos kw with
  | Raised e => Raised e
  | Returned b =>
      match dict_get "args" b, dict_get "returncode" b with
      | Some a, Some r =>
          Returned (mkRet a r (default PyNone (dict_get "stdout" b))
                              (default PyNone (dict_get "stderr" b)))
      | _, _ => Raised TypeError
      end
  end.

(** [Ret.__init__(self, *args, **kwargs)], branch by branch.  The second
    test reads [args[0]] before anything else, also when only keywords were
    passed.  In the third branch [self], whose attributes were just copied
    from [args[0]], is handed to the base initialiser as its first
    positional argument: it is passed here as the value of those
    attributes. *)
Definition Ret_init (pos : list pyval) (kw : kwargs) : outcome Ret :=
  match pos, kw with
  | [], [] => Returned (mkRet (PyList []) (PyInt 0) (PyList []) (PyList []))
  | _, _ =>
      match pos with
      | [] => Raised IndexError
      | a0 :: rest =>
          if is_int a0 && Nat.eqb (length pos) 1 && negb (py_truth (PyDict kw))
          then Returned (mkRet (PyList []) a0 (PyList []) (PyList []))
          else
            match a0 with
            | PyCompleted a r o e =>
                CompletedProcess_init (PyCompleted a r o e :: rest) kw
            | _ => CompletedProcess_init pos kw
            end
      end
  end.

(** [Ret.__bool__]: "Return true if we contain an error." *)
Definition Ret_bool (r : Ret) : bool := py_truth (returncode r).

(** *** The operating system, seen from this process

    [subprocess.run] and [os.chdir] are the boundary to the outside: what a
    spawned command does and reports is given by the [OS] in the world, as a
    function of the call, of the calls made before it and of the working
    directory.  The world records every call of [subprocess.run]. *)

Record call : Type := Call {
  call_argv : list pyval;
  call_kwargs : kwargs
}.

Record exit : Type := Exit {
  exit_status : Z;
  exit_stdout : pyval;
  exit_stderr : pyval
}.

Record OS : Type := mkOS {
  subprocess_run : call -> list call -> string -> outcome exit;
  chdir : string -> string -> outcome string
}.

Record world : Type := mkWorld {
  os : OS;
  calls : list call;
  cwd : string;
  previous_paths : list string
}.

Definition set_calls (c : list call) (w : world) : world :=
  mkWorld (os w) c (cwd w) (previous_paths w).
Definition set_cwd (d : string) (w : world) : world :=
  mkWorld (os w) (calls w) d (previous_paths w).
Definition set_previous_paths (p : list string) (w : world) : world :=
  mkWorld (os w) (calls w) (cwd w) p.

Definition Ret_new (pos : list pyval) (kw : kwargs) : M world Ret :=
  lift (Ret_init pos kw).

(** [subprocess.run(argv, **kw)]. *)
Definition spawn (argv : list pyval) (kw : kwargs) : M world pyval :=
  fun w =>
    let c := Call argv kw in
    let w' := set_calls (calls w ++ [c]) w in
    match subprocess_run (os w) c (calls w) (cwd w) with
    | Returned x =>
        (Returned (PyCompleted (PyList argv) (PyInt (exit_status x))
                               (exit_stdout x) (exit_stderr x)), w')
    | Raised e => (Raised e, w')
    end.

(** [run(cmd, *args, **kwargs)]. *)
Definition run (cmd : pyval) (args : list pyval) (kw : kwargs) : M world Ret :=
  let* cp := spawn (cmd :: args) kw in
  Ret_new [cp] [].

(** The operators [a and b] and [a or b] on execution results: the right
    operand is evaluated only when the truth value of the left one asks
    for it. *)
Definition py_and (a b : M world Ret) : M world Ret :=
  let* r := a in
  if Ret_bool r then b else ret r.

Definition py_or (a b : M world Ret) : M world Ret :=
  let* r := a in
  if Ret_bool r then ret r else b.

(** A chain [s1 and s2 and ... and sn]. *)
Fixpoint and_chain (first : M world Ret) (rest : list (M world Ret))
  : M world Ret :=
  match rest with
  | [] => first
  | s :: rest' => and_chain (py_and first s) rest'
  end.

Definition cd (path : string) : M world Ret :=
  fun w =>
    match chdir (os w) (cwd w) path with
    | Returned d =>
        Ret_new [] [("args", PyList [PyStr path]); ("returncode", PyInt SUCCESS);
                    ("stdout", PyNone); ("stderr", PyNone)] (set_cwd d w)
    | Raised (FileNotFoundError errno strerror) =>
        Ret_new [] [("args", PyList [PyStr path]); ("returncode", PyInt errno);
                    ("stdout", PyNone); ("stderr", PyStr strerror)] w
    | Raised e => (Raised e, w)
    end.

(** [pushd] and [popd] share one list, [previous_paths]. *)
Definition pushd (path : string) : M world Ret :=
  fun w => cd path (set_previous_paths (previous_paths w ++ [cwd w]) w).

Definition popd : M world Ret :=
  fun w =>
    match list_pop (previous_paths w) with
    | Some (p, r) => cd p (set_previous_paths r w)
    | None =>
        Ret_new [] [("args", PyList [PyStr "popd"]); ("returncode", PyInt FAILURE);
                    ("stdout", PyNone); ("stderr", PyStr "directory stack empty.")]
                w
    end.

Definition mkdir (path : string) : M world Ret :=
  run (PyStr "mkdir") [PyStr "-p"; PyStr path] [].

Definition path_exists (path : string) : M world Ret :=
  run (PyStr "/usr/bin/test") [PyStr "-d"; PyStr path] [].

(** The keyword-only parameters of [flock]; any other keyword lands in its
    [**kwargs] and goes on to [run]. *)
Definition flock_params : list string :=
  ["conflict_exit_code"; "no_fork"; "exclusive"; "nonblock"; "close";
   "shared"; "unlock"; "wait"].

Definition kwarg (name : string) (kw : kwargs) : pyval :=
  default PyNone (dict_get name kw).

Definition flock_options (kw : kwargs) : list pyval :=
  (match kwarg "conflict_exit_code" kw with
   | PyNone => []
   | v => [PyStr ("-E " +:+ py_str v)]
   end)
  ++ (if py_truth (kwarg "no_fork" kw) then [PyStr "-n"] else [])
  ++ (if py_truth (kwarg "exclusive" kw) then [PyStr "-x"] else [])
  ++ (if py_truth (kwarg "nonblock" kw) then [PyStr "-n"] else [])
  ++ (if py_truth (kwarg "close" kw) then [PyStr "-o"] else [])
  ++ (if py_truth (kwarg "shared" kw) then [PyStr "-s"] else [])
  ++ (if py_truth (kwarg "unlock" kw) then [PyStr "-u"] else [])
  ++ (if py_truth (kwarg "wait" kw) then
        [PyStr ("--timeout " +:+ py_str (kwarg "wait" kw))] else []).

Definition flock_rest (kw : kwargs) : kwargs :=
  List.filter (fun kv => negb (existsb (String.eqb (fst kv)) flock_params)) kw.

(** [flock(path, cmd=[], /, *, conflict_exit_code=None, ..., **kwargs)],
    called with the keywords [kw]. *)
Definition flock (path : string) (cmd : list pyval) (kw : kwargs)
  : M world Ret :=
  run (PyStr "flock") (flock_options kw ++ [PyStr path] ++ cmd) (flock_rest kw).

(** [flock_try(path, cmd, /, **kwargs)]: the call it makes is
    [flock(path, cmd, kwargs=kwargs | {"nonblock": True}, **kwargs)], one
    keyword named [kwargs] followed by the caller's own keywords. *)
Definition flock_try (path : string) (cmd : list pyval) (kw : kwargs)
  : M world Ret :=
  let merged := dict_merge kw [("nonblock", PyBool true)] in
  if dict_has "kwargs" kw then raise TypeError
  else flock path cmd (("kwargs", PyDict merged) :: kw).

End Utils.

(** ** [src/weaver/build-gnu-toolchain.py]: the source repository cache *)

Module Weaver.
Import Utils.

Definition BUILD_DIR : string := "/build".
Definition SOURCE_DIR : string := "/source".

(** [s.split('/')[-1]]. *)
Fixpoint last_segment (acc s : string) : string :=
  match s with
  | EmptyString => acc
  | String c r =>
      if Ascii.eqb c "/" then last_segment "" r
      else last_segment (acc +:+ String c "") r
  end.

(** [s.removesuffix(suf)]. *)
Definition removesuffix (suf s : string) : string :=
  let n := (String.length s - String.length suf)%nat in
  if Nat.leb (String.length suf) (String.length s)
     && String.eqb (substring n (String.length suf) s) suf
  then substring 0 n s else s.

(** A subclass of [GitRepo].  The class methods read [cls.name],
    [cls.remote_url] and [cls.bare_path]; they stand here for the values of
    [_name], [_remote_url] and [_bare_path]. *)
Record GitRepo : Type := mkGitRepo {
  name : string;
  remote_url : string;
  bare_path : string
}.

(** The target of [for k, v in kwargs]: iterating a dictionary yields its
    keys, and a key unpacks into [(k, v)] only when it has two characters. *)
Definition unpack_key (key : string) : outcome (string * string) :=
  match key with
  | String a (String b EmptyString) => Returned (String a "", String b "")
  | _ => Raised ValueError
  end.

(** [k.replace('_', '-')]. *)
Fixpoint replace_underscore (k : string) : string :=
  match k with
  | EmptyString => EmptyString
  | String c r =>
      String (if Ascii.eqb c "_" then "-"%char else c) (replace_underscore r)
  end.

(** [[f"--{k.replace('_', '-')}={v}" for k, v in kwargs]]. *)
Fixpoint kw_options (kw : kwargs) : outcome (list pyval) :=
  match kw with
  | [] => Returned []
  | (key, _) :: kw' =>
      match unpack_key key with
      | Raised e => Raised e
      | Returned (k, v) =>
          match kw_options kw' with
          | Raised e => Raised e
          | Returned r =>
              Returned (PyStr ("--" +:+ replace_underscore k +:+ "=" +:+ v) :: r)
          end
      end
  end.

(** [GitRepo.clone(cls, *args, output=None, **kwargs)]. *)
Definition clone (cls : GitRepo) (args : list pyval) (output : option string)
    (kw : kwargs) : M world Ret :=
  let output :=
    match output with
    | None => removesuffix ".git" (last_segment "" (remote_url cls))
    | Some o => o
    end in
  let* opts := lift (kw_options kw) in
  let cmd := [PyStr "git"] ++ args ++ opts
               ++ [PyStr (remote_url cls); PyStr output] in
  py_and (mkdir output) (flock_try output cmd [("exlusive", PyBool true)]).

(** [GitRepo.shallow_clone(cls, *args, branch="main", output=None,
    depth=1)]. *)
Definition shallow_clone (cls : GitRepo) (args : list pyval) (branch : string)
    (output : option string) (depth : Z) : M world Ret :=
  let output :=
    match output with
    | None => path_join (path_join SOURCE_DIR (name cls)) branch
    | Some o => o
    end in
  clone cls (PyStr "--single-branch" :: args) (Some output)
        [("branch", PyStr branch); ("depth", PyInt depth)].

Definition fetch_version (cls : GitRepo) (version : string) : M world Ret :=
  shallow_clone cls [] version None 1.

Definition initial_fetch (cls : GitRepo) : M world Ret :=
  let output := path_join SOURCE_DIR (name cls +:+ ".git") in
  clone cls [PyStr "--bare"] (Some output) [].

(** The return expression of [GitRepo.update] over its five operands. *)
Definition update_chain (test fetch_first push fetch pop : M world Ret)
  : M world Ret :=
  and_chain (py_or test fetch_first) [push; fetch; pop].

Definition update (cls : GitRepo) : M world Ret :=
  let output := path_join SOURCE_DIR (name cls +:+ ".git") in
  update_chain
    (run (PyList [PyStr "/usr/bin/test"; PyStr "-d"; PyStr output]) [] [])
    (initial_fetch cls)
    (pushd output)
    (flock output [PyStr "git"; PyStr "fetch"; PyStr (remote_url cls)]
           [("exlusive", PyBool true)])
    popd.

(** The return expression of [MakeProject.configure],
[[
    run(["mkdir", "-p", f"{self.build_dir}"])
    and run(["cd", f"{self.build_dir}"]) and self.pre_config()
    and run(configure_cmd + configure_args, env=configure_env)
    and self.post_config()
]]
    over the values computed in front of it and the two hooks, which a
    subclass may override. *)
Definition configure_chain (build_dir : string)
    (configure_cmd configure_args : list pyval) (configure_env : pyval)
    (pre_config post_config : M world Ret) : M world Ret :=
  and_chain
    (run (PyList [PyStr "mkdir"; PyStr "-p"; PyStr build_dir]) [] [])
    [run (PyList [PyStr "cd"; PyStr build_dir]) [] [];
     pre_config;
     run (PyList (configure_cmd ++ configure_args)) [] [("env", configure_env)];
     post_config].

(** The hooks as [MakeProject] defines them: [Ret(SUCCESS)]. *)
Definition pre_config : M world Ret := Ret_new [PyInt SUCCESS] [].
Definition post_config : M world Ret := Ret_new [PyInt SUCCESS] [].

End Weaver.

(** ** [hashlib.sha256] (FIPS 180-4), on 32-bit words held in [Z] *)

Module Sha256.

Definition w32 (x : Z) : Z := x mod 2 ^ 32.
Definition add32 (x y : Z) : Z := w32 (x + y).
Definition rotr (n x : Z) : Z :=
  w32 (Z.lor (Z.shiftr x n) (Z.shiftl x (32 - n))).
Definition Ch (x y z : Z) : Z :=
  Z.lxor (Z.land x y) (Z.land (w32 (Z.lnot x)) z).
Definition Maj (x y z : Z) : Z :=
  Z.lxor (Z.lxor (Z.land x y) (Z.land x z)) (Z.land y z).
Definition Sigma0 (x : Z) : Z :=
  Z.lxor (Z.lxor (rotr 2 x) (rotr 13 x)) (rotr 22 x).
Definition Sigma1 (x : Z) : Z :=
  Z.lxor (Z.lxor (rotr 6 x) (rotr 11 x)) (rotr 25 x).
Definition sigma0 (x : Z) : Z :=
  Z.lxor (Z.lxor (rotr 7 x) (rotr 18 x)) (Z.shiftr x 3).
Definition sigma1 (x : Z) : Z :=
  Z.lxor (Z.lxor (rotr 17 x) (rotr 19 x)) (Z.shiftr x 10).

Definition K : list Z :=
  [1116352408; 1899447441; 3049323471; 3921009573; 961987163; 1508970993;
   2453635748; 2870763221; 3624381080; 310598401; 607225278; 1426881987;
   1925078388; 2162078206; 2614888103; 3248222580; 3835390401; 4022224774;
   264347078; 604807628; 770255983; 1249150122; 1555081692; 1996064986;
   2554220882; 2821834349; 2952996808; 3210313671; 3336571891; 3584528711;
   113926993; 338241895; 666307205; 773529912; 1294757372; 1396182291;
   1695183700; 1986661051; 2177026350; 2456956037; 2730485921; 2820302411;
   3259730800; 3345764771; 3516065817; 3600352804; 4094571909; 275423344;
   430227734; 506948616; 659060556; 883997877; 958139571; 1322822218;
   1537002063; 1747873779; 1955562222; 2024104815; 2227730452; 2361852424;
   2428436474; 2756734187; 3204031479; 3329325298].

Definition H0 : list Z :=
  [1779033703; 3144134277; 1013904242; 2773480762; 1359893119; 2600822924;
   528734635; 1541459225].

Definition bytes_of (s : string) : list Z :=
  map (fun c => Z.of_N (N_of_ascii c)) (list_ascii_of_string s).

Definition string_of (l : list Z) : string :=
  string_of_list_ascii (map (fun b => ascii_of_N (Z.to_N b)) l).

(** Big-endian bytes of [x], [n] of them. *)
Fixpoint be_bytes (n : nat) (x : Z) : list Z :=
  match n with
  | O => []
  | S n' => (Z.shiftr x (8 * Z.of_nat n')) mod 256 :: be_bytes n' x
  end.

Definition pad (msg : list Z) : list Z :=
  let len := Z.of_nat (length msg) in
  msg ++ [128] ++ repeat 0 (Z.to_nat ((55 - len) mod 64))
      ++ be_bytes 8 (8 * len).

Fixpoint be_words (n : nat) (l : list Z) : list Z :=
  match n, l with
  | S n', a :: b :: c :: d :: r =>
      (Z.shiftl a 24 + Z.shiftl b 16 + Z.shiftl c 8 + d) :: be_words n' r
  | _, _ => []
  end.

(** The message schedule, newest word first while it is being built. *)
Fixpoint extend (n : nat) (wrev : list Z) : list Z :=
  match n with
  | O => wrev
  | S n' =>
      let w := add32 (add32 (sigma1 (nth 1 wrev 0)) (nth 6 wrev 0))
                     (add32 (sigma0 (nth 14 wrev 0)) (nth 15 wrev 0)) in
      extend n' (w :: wrev)
  end.

Definition schedule (block : list Z) : list Z := rev (extend 48 (rev block)).

Definition round (st : list Z) (kw : Z * Z) : list Z :=
  match st with
  | [a; b; c; d; e; f; g; h] =>
      let t1 := add32 (add32 (add32 h (Sigma1 e)) (add32 (Ch e f g) (fst kw)))
                      (snd kw) in
      let t2 := add32 (Sigma0 a) (Maj a b c) in
      [add32 t1 t2; a; b; c; add32 d t1; e; f; g]
  | _ => st
  end.

Definition compress (hs block : list Z) : list Z :=
  let st := fold_left round (combine K (schedule block)) hs in
  map (fun p => add32 (fst p) (snd p)) (combine hs st).

Fixpoint blocks (n : nat) (hs msg : list Z) : list Z :=
  match n with
  | O => hs
  | S n' => blocks n' (compress hs (be_words 16 (firstn 64 msg))) (skipn 64 msg)
  end.

(** The digest of the bytes fed so far, as 32 bytes. *)
Definition digest (data : string) : string :=
  let msg := pad (bytes_of data) in
  string_of (flat_map (be_bytes 4) (blocks (length msg / 64) H0 msg)).

End Sha256.

(** ** [src/build-gnu-toolchain.py]: projects, their defaults, the build
    identity *)

Module Script.
Import Utils.

(** *** Class attributes

    A class body binds some of the five attributes; a list attribute is a
    list object in the store, named by its location, so that two names for
    one object see each other's updates. *)

Definition loc := string.

Record class_body : Type := mkBody {
  _default_config : option loc;
  _default_config_env : option pyval;
  _config_conflicts : option pyval;
  _default_make_args : option loc;
  _default_install_args : option loc
}.

(** [MakeProject], whose only base is [object], or a class derived from it.
    Every class of the script has exactly one base. *)
Inductive pyclass : Type :=
| MakeProject
| Subclass (body : class_body) (base : pyclass).

(** The body of [class MakeProject]. *)
Definition MakeProject_body : class_body :=
  mkBody (Some "MakeProject._default_config") (Some (PyDict []))
         (Some (PyDict [])) (Some "MakeProject._default_make_args")
         (Some "MakeProject._default_install_args").

Definition body_of (c : pyclass) : class_body :=
  match c with
  | MakeProject => MakeProject_body
  | Subclass b _ => b
  end.

(** [getattr(cls, name, default)] along the bases.  [MakeProject] binds all
    five attributes, so the default is returned for no class. *)
Fixpoint getattr {A} (sel : class_body -> option A) (default : A)
    (c : pyclass) : A :=
  match sel (body_of c) with
  | Some a => a
  | None =>
      match c with
      | MakeProject => default
      | Subclass _ b => getattr sel default b
      end
  end.

(** The store of list objects. *)
Abbreviation heap := (gmap string (list string)).

Definition read (h : heap) (l : loc) : list string := h !!! l.

(** [ret += other] on list objects: [ret] is extended in place by the
    elements that [other] holds at that moment. *)
Definition extend (l : loc) (v : list string) (h : heap) : heap :=
  <[l := read h l ++ v]> h.

Definition iadd (l other : loc) : M heap unit :=
  fun h => (Returned tt, extend l (read h other) h).

Definition iadd_fresh (l : loc) (v : list string) : M heap unit :=
  fun h => (Returned tt, extend l v h).

(** The three list accessors share one body:
[[
    ret = getattr(cls, "_default_config", [])
    for c in cls.__bases__:
      ret += getattr(c, "default_config", lambda: [])()
    return ret
]]
    [object] has no such method, so for [MakeProject] the loop adds the
    empty list of the lambda.  The result is the list object itself. *)
Fixpoint default_list (sel : class_body -> option loc) (c : pyclass)
  : M heap loc :=
  let r := getattr sel "" c in
  match c with
  | MakeProject => let* _ := iadd_fresh r [] in ret r
  | Subclass _ b =>
      let* inherited := default_list sel b in
      let* _ := iadd r inherited in
      ret r
  end.

Definition default_config : pyclass -> M heap loc :=
  default_list _default_config.
Definition default_make_args : pyclass -> M heap loc :=
  default_list _default_make_args.
Definition default_install_args : pyclass -> M heap loc :=
  default_list _default_install_args.

(** [default_config_env]:
[[
    ret = getattr(cls, "_default_config_env", [])
    for c in cls.__bases__:
      ret = getattr(c, "default_config_env", lambda: [])() | ret
    return ret
]] *)
Fixpoint default_config_env (c : pyclass) : outcome pyval :=
  let r := getattr _default_config_env (PyList []) c in
  match c with
  | MakeProject => py_bitor (PyList []) r
  | Subclass _ b =>
      match default_config_env b with
      | Returned inherited => py_bitor inherited r
      | Raised e => Raised e
      end
  end.

(** *** The classes of the script *)

Definition ToolchainSupportLib : pyclass :=
  Subclass
    (mkBody (Some "ToolchainSupportLib._default_config")
       (Some (PyDict [("LDFLAGS", PyStr "-Wl,-rpath,${prefix}/lib");
                      ("CC", PyStr "{cc}"); ("CXX", PyStr "{cxx}");
                      ("LD", PyStr "{linker}")]))
       None None None)
    MakeProject.

Definition LibGMP : pyclass :=
  Subclass (mkBody (Some "LibGMP._default_config") None None None None)
           ToolchainSupportLib.
Definition LibMPFR : pyclass :=
  Subclass (mkBody (Some "LibMPFR._default_config") None None None None)
           ToolchainSupportLib.
Definition LibMPC : pyclass :=
  Subclass (mkBody (Some "LibMPC._default_config") None None None None)
           ToolchainSupportLib.
Definition LibISL : pyclass :=
  Subclass (mkBody (Some "LibISL._default_config") None None None None)
           ToolchainSupportLib.

Definition Binutils : pyclass :=
  Subclass
    (mkBody (Some "Binutils._default_config")
       (Some (PyDict [("LDFLAGS", PyStr "-Wl,-rpath,{prefix}/lib");
                      ("CC", PyStr "{cc}"); ("CXX", PyStr "{cxx}");
                      ("LD", PyStr "{ld}")]))
       None None None)
    MakeProject.

Definition KernelHeaders : pyclass :=
  Subclass (mkBody None None None None
                   (Some "KernelHeaders._default_install_args"))
           MakeProject.

Definition StaticGCC : pyclass :=
  Subclass
    (mkBody (Some "StaticGCC._default_config")
       (Some (PyDict [("LDFLAGS", PyStr "-Wl,-rpath,${prefix}/lib");
                      ("CC", PyStr "{cc}"); ("CXX", PyStr "{cxx}");
                      ("LD", PyStr "{linker}"); ("AR", PyStr "{ar}")]))
       None None None)
    MakeProject.

Definition Glibc : pyclass :=
  Subclass
    (mkBody (Some "Glibc._default_config")
       (Some (PyDict [("BUILD_CC", PyStr "{cc}");
                      ("CC", PyStr "{target_triplet}-gcc");
                      ("CXX", PyStr "{target_triplet}-g++");
                      ("AR", PyStr "{target_triplet}-ar");
                      ("RANLIB", PyStr "{triplet}-ranlib")]))
       None None (Some "Glibc._default_install_args"))
    MakeProject.

Definition GCC : pyclass :=
  Subclass
    (mkBody (Some "GCC._default_config")
       (Some (PyDict [("AR", PyStr "ar");
                      ("LDFLAGS", PyStr "-Wl,-rpath,{prefix}/lib");
                      ("CC", PyStr "{cc}"); ("CXX", PyStr "{cxx}")]))
       None (Some "GCC._default_make_args") None)
    MakeProject.

(** The list objects that the class bodies create, as the store holds them
    once the module is loaded. *)
Definition class_lists : list (loc * list string) :=
  [("MakeProject._default_config", []);
   ("MakeProject._default_make_args", ["-j{cpus}"]);
   ("MakeProject._default_install_args", []);
   ("ToolchainSupportLib._default_config",
      ["--disable-static"; "--prefix={prefix}"]);
   ("LibGMP._default_config", ["--enable-cxx"]);
   ("LibMPFR._default_config", ["--with-gmp={prefix}"]);
   ("LibMPC._default_config", ["--with-gmp={prefix}"; "--with-mpfr={prefix}"]);
   ("LibISL._default_config", ["--with-gmp-prefix={prefix}"]);
   ("Binutils._default_config",
      ["--prefix={prefix}"; "--host={host_triplet}"; "--build={build_triplet}";
       "--target={target_triplet}"; "--with-sysroot=${sysroot}";
       "--with-gmp={prefix}"; "--with-mpfr={prefix}"; "--with-mpc={prefix}";
       "--with-isl={prefix}"; "--disable-werror"]);
   ("KernelHeaders._default_install_args",
      ["ARCH={arch}"; "INSTALL_HDR_PATH={hdr_dir}"]);
   ("StaticGCC._default_config",
      ["--prefix={prefix}"; "--target={target_triplet}"; "--build={build}";
       "--host={host}"; "--with-sysroot={sysroot}";
       "--with-native-system-header-dir=/usr/include"; "--without-headers";
       "--with-newlib"; "--enable-default-pie"; "--enable-default-ssp";
       "--disable-nls"; "--disable-shared"; "--disable-decimal-float";
       "--disable-threads"; "--disable-libatomic"; "--disable-libgomp";
       "--disable-libmudflap"; "--disable-libssp"; "--disable-libitm";
       "--disable-libsanitizer"; "--disable-libquadmath";
       "--disable-libstdcxx"; "--with-gmp={prefix}"; "--with-mpfr={prefix}";
       "--with-mpc={prefix}"; "--with-isl={prefix}"; "--enable-languages=c";
       "--disable-werror"]);
   ("Glibc._default_config",
      ["--host={target_triplet}"; "--build={host_triplet}"; "--prefix=/usr";
       "--libdir=/usr/lib"; "--with-headers={sysroot}/usr/include";
       "--with-binutils={prefix}/bin"; "--enable-kernel={kernel_version}";
       "--enable-shared"; "--disable-profile"; "--disable-werror"]);
   ("Glibc._default_install_args", ["install_root={}"]);
   ("GCC._default_config",
      ["--prefix=${prefix}"; "--target=${target_triplet}";
       "--host=${host_triplet}"; "--build=${build_triplet}";
       "--with-sysroot=${sysroot}";
       "--with-native-system-header-dir=/usr/include"; "--enable-default-pie";
       "--enable-default-ssp"; "--enable-languages=c,c++";
       "--enable-threads=posix"; "--with-mpc=${prefix}";
       "--with-mpfr=${prefix}"; "--with-gmp=${prefix}"; "--with-isl=${prefix}"]);
   ("GCC._default_make_args",
      ["AS_FOR_TARGET={target_triplet}-as"; "LD_FOR_TARGET={target_triplet}-ld"])].

Definition loaded : heap := list_to_map class_lists.

(** *** The script's own [Ret]

    The script repeats the definitions of [utils.py]; [run] and the
    initialiser of [Ret] are those of [Utils].  Its [__bool__] evaluates
    [bool(self.returncode)] and returns nothing. *)
Definition Ret_bool (r : Ret) : pyval :=
  let _ := py_truth (returncode r) in PyNone.

(** The truth value of an object through [__bool__], which must give a
    [bool]. *)
Definition truth (r : Ret) : outcome bool :=
  match Ret_bool r with
  | PyBool b => Returned b
  | _ => Raised TypeError
  end.

(** *** Project instances *)

Record state : Type := mkState {
  store : heap;
  sys : world
}.

Definition in_store {A} (m : M heap A) : M state A :=
  fun s => let '(o, h) := m (store s) in (o, mkState h (sys s)).

Definition in_world {A} (m : M world A) : M state A :=
  fun s => let '(o, w) := m (sys s) in (o, mkState (store s) w).

Definition py_and (a b : M state Ret) : M state Ret :=
  let* r := a in
  match truth r with
  | Returned true => b
  | Returned false => ret r
  | Raised e => raise e
  end.

(** An instance: its class and its [__dict__]. *)
Record instance : Type := mkInstance {
  class_of : pyclass;
  dict : kwargs
}.

Definition setattr (name : string) (v : pyval) (self : instance) : instance :=
  mkInstance (class_of self) (dict_set name v (dict self)).

Definition attr (self : instance) (name : string) : outcome pyval :=
  match dict_get name (dict self) with
  | Some v => Returned v
  | None => Raised AttributeError
  end.

(** The arguments of [MakeProject.__init__] after binding. *)
Record init_args : Type := mkInitArgs {
  source_dir : pyval;
  build_dir : pyval;
  cpus : pyval;
  config : pyval;
  config_env : pyval;
  make_targets : pyval;
  make_env : pyval;
  make_args : pyval;
  install_targets : pyval;
  install_env : pyval;
  install_args : pyval;
  more : kwargs
}.

(** The defaults of the signature. *)
Definition init_defaults (source_dir build_dir cpus : pyval) : init_args :=
  mkInitArgs source_dir build_dir cpus (PyDict []) (PyDict []) (PyList [])
             (PyDict []) (PyList []) (PyList [PyStr "install"]) (PyDict [])
             (PyList []) [].

(** [MakeProject._handle_conflicts(cls, configure_args)]: its body is
    [pass]. *)
Definition _handle_conflicts (cls : pyclass) (configure_args : pyval)
  : M state pyval :=
  ret PyNone.

(** [MakeProject.__init__]. *)
Definition MakeProject_init (self : instance) (a : init_args)
  : M state instance :=
  let* _ := _handle_conflicts (class_of self) (config a) in
  let self := setattr "source_dir" (source_dir a) self in
  let self := setattr "build_dir" (build_dir a) self in
  let self := setattr "cpus" (cpus a) self in
  let self := setattr "config" (config a) self in
  let self := setattr "config_env" (config_env a) self in
  let self := setattr "make_targets" (make_targets a) self in
  let self := setattr "make_env" (make_env a) self in
  let self := setattr "make_args" (make_args a) self in
  let self := setattr "install_targets" (install_targets a) self in
  let self := setattr "install_env" (install_env a) self in
  let self := setattr "install_args" (install_args a) self in
  ret (mkInstance (class_of self) (dict_merge (dict self) (more a))).

(** The hooks, as [MakeProject] defines them. *)
Definition pre_config (self : instance) : M state Ret :=
  in_world (Ret_new [PyInt SUCCESS] []).
Definition post_config (self : instance) : M state Ret :=
  in_world (Ret_new [PyInt SUCCESS] []).

(** [l + v] for a list [l]. *)
Definition list_add (l : list pyval) (v : pyval) : outcome (list pyval) :=
  match v with
  | PyList x => Returned (l ++ x)
  | _ => Raised TypeError
  end.

(** The keys that [for ... in v] walks through, for the results of [|]. *)
Definition iter_keys (v : pyval) : outcome (list string) :=
  match v with
  | PyDict d => Returned (map fst d)
  | _ => Raised TypeError
  end.

(** Reading a local variable of the function. *)
Definition read_local {S} (v : option pyval) : M S pyval :=
  match v with
  | Some x => ret x
  | None => raise UnboundLocalError
  end.

Section Configure.

(** [s.format( **d)], the template substitution of [str]. *)
Variable format : string -> kwargs -> outcome string.

Definition format_value (d : kwargs) (v : pyval) : outcome pyval :=
  match v with
  | PyStr s =>
      match format s d with
      | Returned x => Returned (PyStr x)
      | Raised e => Raised e
      end
  | _ => Raised AttributeError
  end.

Fixpoint format_all (d : kwargs) (l : list pyval) : outcome (list pyval) :=
  match l with
  | [] => Returned []
  | v :: r =>
      match format_value d v with
      | Raised e => Raised e
      | Returned x =>
          match format_all d r with
          | Raised e => Raised e
          | Returned xs => Returned (x :: xs)
          end
      end
  end.

(** [{k : v.format( **d) for k, v in keys}]. *)
Fixpoint format_env (d : kwargs) (keys : list string) : outcome kwargs :=
  match keys with
  | [] => Returned []
  | key :: r =>
      match Weaver.unpack_key key with
      | Raised e => Raised e
      | Returned (k, v) =>
          match format_value d (PyStr v) with
          | Raised e => Raised e
          | Returned x =>
              match format_env d r with
              | Raised e => Raised e
              | Returned env => Returned (dict_merge [(k, x)] env)
              end
          end
      end
  end.

(** The return expression of [MakeProject.configure]. *)
Definition configure_chain (self : instance)
    (configure_cmd configure_args : list pyval) (configure_env : pyval)
  : M state Ret :=
  py_and
    (py_and
       (py_and
          (py_and
             (let* b := lift (attr self "build_dir") in
              in_world (run (PyList [PyStr "mkdir"; PyStr "-p";
                                     PyStr (py_str b)]) [] []))
             (let* b := lift (attr self "build_dir") in
              in_world (run (PyList [PyStr "cd"; PyStr (py_str b)]) [] [])))
          (pre_config self))
       (in_world (run (PyList (configure_cmd ++ configure_args)) []
                      [("env", configure_env)])))
    (post_config self).

(** [MakeProject.configure].  [configure_env] is a local of the function,
    read in the expression that gives it its first value. *)
Definition configure (self : instance) : M state Ret :=
  let* source_dir := lift (attr self "source_dir") in
  let* script := lift (path_div source_dir (PyStr "configure")) in
  let configure_cmd := [PyStr (py_str script)] in
  let* defaults := in_store (default_config (class_of self)) in
  let* config := lift (attr self "config") in
  let* templates :=
    (fun s => lift (list_add (map PyStr (read (store s) defaults)) config) s) in
  let* configure_args := lift (format_all (dict self) templates) in
  let* inherited := lift (default_config_env (class_of self)) in
  let* unbound := read_local None in
  let* merged := lift (py_bitor inherited unbound) in
  let* keys := lift (iter_keys merged) in
  let* configure_env := lift (format_env (dict self) keys) in
  configure_chain self configure_cmd configure_args (PyDict configure_env).

End Configure.

(** *** The build identity *)

(** [h.update(data)] of [hashlib]: the object takes bytes-like data and
    refuses [str].  The state is the bytes fed so far. *)
Definition sha256_update (h : string) (data : pyval) : outcome string :=
  match data with
  | PyBytes b => Returned (h +:+ b)
  | _ => Raised TypeError
  end.

(** The loop [for arg in argv: h.update(str(arg))]. *)
Fixpoint feed (h : string) (argv : list pyval) : outcome string :=
  match argv with
  | [] => Returned h
  | arg :: r =>
      match sha256_update h (PyStr (py_str arg)) with
      | Returned h' => feed h' r
      | Raised e => Raised e
      end
  end.

(** [hash_build_config( *argv)]. *)
Definition hash_build_config (argv : list pyval) : outcome pyval :=
  match feed "" argv with
  | Returned h => Returned (PyBytes (Sha256.digest h))
  | Raised e => Raised e
  end.

(** The prefix of [parse_args]:
    [pathlib.PurePath("/opt") / target / build_hash], with the hash taken
    over the resolved configuration values [argv]. *)
Definition build_prefix (target : pyval) (argv : list pyval) : outcome pyval :=
  match hash_build_config argv with
  | Raised e => Raised e
  | Returned build_hash =>
      match path_div (PyPath "/opt") target with
      | Raised e => Raised e
      | Returned p => path_div p build_hash
      end
  end.

End Script.

(** ** Worlds and classes used as concrete inputs *)

Module Inputs.
Import Utils.

(** Every command exits with status 0 and every directory exists. *)
Definition quiet : OS :=
  mkOS (fun _ _ _ => Returned (Exit 0 PyNone PyNone))
       (fun _ path => Returned path).

(** [mkdir] exits with status 1, every other command with 0. *)
Definition mkdir_fails : OS :=
  mkOS (fun c _ _ =>
          match call_argv c with
          | PyStr "mkdir" :: _ | PyList (PyStr "mkdir" :: _) :: _ =>
              Returned (Exit 1 PyNone (PyStr "mkdir: cannot create directory"))
          | _ => Returned (Exit 0 PyNone PyNone)
          end)
       (fun _ path => Returned path).

Definition fresh (o : OS) : world := mkWorld o [] "/" [].

Definition gcc_repo : Weaver.GitRepo :=
  Weaver.mkGitRepo "gcc" "git://gcc.gnu.org/git/gcc.git" "/source/gcc.git".

(** A project class that declares two options as conflicting with each
    other. *)
Definition Conflicting : Script.pyclass :=
  Script.Subclass
    (Script.mkBody None None
       (Some (PyDict
          [("--enable-shared", PyList [PyStr "--disable-shared"]);
           ("--disable-shared", PyList [PyStr "--enable-shared"])]))
       None None)
    Script.MakeProject.

Definition both_options : Script.init_args :=
  Script.mkInitArgs (PyPath "/source/demo/1.0") (PyPath "/build/demo/1.0")
    (PyInt 4) (PyList [PyStr "--enable-shared"; PyStr "--disable-shared"])
    (PyDict []) (PyList []) (PyDict []) (PyList [])
    (PyList [PyStr "install"]) (PyDict []) (PyList []) [].

Definition loaded_state (o : OS) : Script.state :=
  Script.mkState Script.loaded (fresh o).

End Inputs.

(** ** Architectures and triplets (both toolchain files) *)

Module Arch.

Definition ARCH_TO_KERNEL_ARCH_MAP : list (string * string) :=
  [("aarch64", "arm64")].

(** [d.get(k)] on a dictionary of strings. *)
Fixpoint table_get (k : string) (d : list (string * string)) : option string :=
  match d with
  | [] => None
  | (k', v) :: r => if String.eqb k k' then Some v else table_get k r
  end.

(** [map_arch_to_kernel_arch(arch)]:
    [ARCH_TO_KERNEL_ARCH_MAP.get(arch, arch)]. *)
Definition map_arch_to_kernel_arch (arch : string) : string :=
  default arch (table_get arch ARCH_TO_KERNEL_ARCH_MAP).

(** [make_triplet(arch, org="weaver", os="linux-gnu")]. *)
Definition make_triplet (arch org os : string) : string :=
  arch +:+ "-" +:+ org +:+ "-" +:+ os.

End Arch.

(** ** Listing the versions of a repository
    ([GitRepo._list_versions], [src/weaver/build-gnu-toolchain.py]) *)

Module Listing.
Import Utils.

Definition newline : ascii := ascii_of_nat 10.

(** [s.split(c)] for a separator of one character. *)
Fixpoint split_on (c : ascii) (acc s : string) : list string :=
  match s with
  | EmptyString => [acc]
  | String x r =>
      if Ascii.eqb x c then acc :: split_on c "" r
      else split_on c (acc +:+ String x "") r
  end.

(** [s.split(c)[0]]. *)
Fixpoint first_segment (c : ascii) (s : string) : string :=
  match s with
  | EmptyString => EmptyString
  | String x r =>
      if Ascii.eqb x c then EmptyString else String x (first_segment c r)
  end.

(** [tag.split('/')[-1].split('^')[0]]. *)
Definition version_of (tag : string) : string :=
  first_segment "^" (Weaver.last_segment "" tag).

(** The value given to [out.stdout]: the set of the versions of all lines,
    as a list sorted in reverse order.  Strings compare character by
    character. *)
Definition versions_of (text : string) : list string :=
  merge_sort (flip String.le)
             (remove_dups (map version_of (split_on newline "" text))).

(** [GitRepo._list_versions(cls)]; the output of the command has to be text
    for [split] to take a [str] separator. *)
Definition _list_versions (cls : Weaver.GitRepo) : M world Ret :=
  let* out := run (PyStr "git")
                  [PyStr "ls-remote"; PyStr "--tags"; PyStr "--heads";
                   PyStr (Weaver.bare_path cls)] [] in
  match stdout out with
  | PyStr text =>
      ret (mkRet (args out) (returncode out)
                 (PyList (map PyStr (versions_of text))) (stderr out))
  | PyBytes _ => raise TypeError
  | _ => raise AttributeError
  end.

End Listing.

(** ** The support libraries of the script
    ([ToolchainSupportLib], [LibGMP], [LibMPC], [LibISL]) *)

Module Libs.
Import Utils.

Definition BUILD_DIR : pyval := PyPath "/build".
Definition SOURCE_DIR : pyval := PyPath "/source".

Definition GMP_NAME : string := "gmp".
Definition MPC_NAME : string := "mpc".
Definition ISL_NAME : string := "isl".

(** The keyword parameters of [MakeProject.__init__] that a caller may
    still bind through its own keywords, and those that
    [ToolchainSupportLib.__init__] binds itself. *)
Definition open_params : list string :=
  ["make_targets"; "make_env"; "make_args"; "install_targets";
   "install_env"; "install_args"].
Definition bound_params : list string :=
  ["source_dir"; "build_dir"; "cpus"; "config"; "config_env"].

(** The binding of
    [super().__init__(source_dir, build_dir, cpus, config=extra_config,
    config_env=config_env, **kwargs)]: a keyword that names a parameter
    bound already is refused, a keyword that names one of the other
    parameters gives it its value, the rest is collected. *)
Definition bind_init (source_dir build_dir cpus config config_env : pyval)
    (kw : kwargs) : outcome Script.init_args :=
  if existsb (fun k => existsb (String.eqb k) bound_params) (map fst kw)
  then Raised TypeError
  else
    let d := Script.init_defaults source_dir build_dir cpus in
    let pick name dflt := default dflt (dict_get name kw) in
    Returned
      (Script.mkInitArgs source_dir build_dir cpus config config_env
         (pick "make_targets" (Script.make_targets d))
         (pick "make_env" (Script.make_env d))
         (pick "make_args" (Script.make_args d))
         (pick "install_targets" (Script.install_targets d))
         (pick "install_env" (Script.install_env d))
         (pick "install_args" (Script.install_args d))
         (List.filter
            (fun kv => negb (existsb (String.eqb (fst kv)) open_params)) kw)).

(** The arguments of [ToolchainSupportLib.__init__] after binding. *)
Record lib_args : Type := mkLibArgs {
  lib_name : pyval;
  lib_version : pyval;
  lib_prefix : pyval;
  lib_cpus : pyval;
  lib_cc : pyval;
  lib_cxx : pyval;
  lib_linker : pyval;
  lib_extra_config : pyval;
  lib_config_env : pyval;
  lib_more : kwargs
}.

(** The defaults of the signature. *)
Definition lib_defaults (name version prefix cpus : pyval) : lib_args :=
  mkLibArgs name version prefix cpus (PyStr "gcc") (PyStr "g++") (PyStr "ld")
            (PyList []) (PyDict []) [].

(** [ToolchainSupportLib.__init__]. *)
Definition ToolchainSupportLib_init (self : Script.instance) (a : lib_args)
  : M Script.state Script.instance :=
  let self := Script.setattr "name" (lib_name a) self in
  let self := Script.setattr "version" (lib_version a) self in
  let self := Script.setattr "prefix" (lib_prefix a) self in
  let self := Script.setattr "cc" (lib_cc a) self in
  let self := Script.setattr "cxx" (lib_cxx a) self in
  let self := Script.setattr "linker" (lib_linker a) self in
  let* source_name := lift (path_div SOURCE_DIR (lib_name a)) in
  let* source_dir := lift (path_div source_name (lib_version a)) in
  let* build_name := lift (path_div BUILD_DIR (lib_name a)) in
  let* build_dir := lift (path_div build_name (lib_version a)) in
  let* bound := lift (bind_init source_dir build_dir (lib_cpus a)
                                (lib_extra_config a) (lib_config_env a)
                                (lib_more a)) in
  Script.MakeProject_init self bound.

(** [LibGMP.__init__(self, version, prefix, cpus, extra_config=[],
    config_env={}, **kwargs)], and likewise [LibMPC] and [LibISL] with their
    names: the keywords go to [ToolchainSupportLib.__init__], where one that
    names a parameter given already is refused and [cc], [cxx], [linker]
    take theirs. *)
Definition named_lib_init (name : string) (self : Script.instance)
    (version prefix cpus extra_config config_env : pyval) (kw : kwargs)
  : M Script.state Script.instance :=
  if existsb (fun k => existsb (String.eqb k)
                         ["name"; "version"; "prefix"; "cpus"; "extra_config";
                          "config_env"]) (map fst kw)
  then raise TypeError
  else
    let pick name dflt := default dflt (dict_get name kw) in
    ToolchainSupportLib_init self
      (mkLibArgs (PyStr name) version prefix cpus
         (pick "cc" (PyStr "gcc")) (pick "cxx" (PyStr "g++"))
         (pick "linker" (PyStr "ld")) extra_config config_env
         (List.filter
            (fun kv => negb (existsb (String.eqb (fst kv))
                               ["cc"; "cxx"; "linker"])) kw)).

Definition LibGMP_init : Script.instance -> pyval -> pyval -> pyval -> pyval
                         -> pyval -> kwargs -> M Script.state Script.instance :=
  named_lib_init GMP_NAME.
Definition LibMPC_init : Script.instance -> pyval -> pyval -> pyval -> pyval
                         -> pyval -> kwargs -> M Script.state Script.instance :=
  named_lib_init MPC_NAME.
Definition LibISL_init : Script.instance -> pyval -> pyval -> pyval -> pyval
                         -> pyval -> kwargs -> M Script.state Script.instance :=
  named_lib_init ISL_NAME.

End Libs.

(** ** Notions used to state the properties *)

Module Notions.

(** A path component that [pathlib] keeps as it is: not empty, not [.],
    without a slash. *)
Definition plain_segment (s : string) : Prop :=
  s <> "" /\ s <> "." /\ ~ In "/"%char (list_ascii_of_string s).

(** The list objects that the classes from [c] up to [MakeProject] resolve
    an attribute to. *)
Fixpoint lists_of (sel : Script.class_body -> option Script.loc)
    (c : Script.pyclass) : list Script.loc :=
  Script.getattr sel "" c ::
  match c with
  | Script.MakeProject => []
  | Script.Subclass _ b => lists_of sel b
  end.

(** The number of classes between [c] and [MakeProject]. *)
Fixpoint depth (c : Script.pyclass) : nat :=
  match c with
  | Script.MakeProject => O
  | Script.Subclass _ b => S (depth b)
  end.

(** No class from [c] up to, but without, [MakeProject] binds the
    attribute in its body. *)
Fixpoint unbound (sel : Script.class_body -> option Script.loc)
    (c : Script.pyclass) : Prop :=
  match c with
  | Script.MakeProject => True
  | Script.Subclass body b => sel body = None /\ unbound sel b
  end.

(** The eleven attributes that [MakeProject.__init__] assigns, in order. *)
Definition assigned (a : Script.init_args) : kwargs :=
  [("source_dir", Script.source_dir a); ("build_dir", Script.build_dir a);
   ("cpus", Script.cpus a); ("config", Script.config a);
   ("config_env", Script.config_env a);
   ("make_targets", Script.make_targets a); ("make_env", Script.make_env a);
   ("make_args", Script.make_args a);
   ("install_targets", Script.install_targets a);
   ("install_env", Script.install_env a);
   ("install_args", Script.install_args a)].

End Notions.

(** ** A support library used as a concrete input *)

Module Samples.

Definition gmp_args : Libs.lib_args :=
  Libs.lib_defaults (PyStr "gmp") (PyStr "6.3.0") (PyPath "/opt/t") (PyInt 4).

Definition gmp_built : outcome Script.instance * Script.state :=
  Libs.ToolchainSupportLib_init (Script.mkInstance Script.LibGMP []) gmp_args
                                (Inputs.loaded_state Inputs.quiet).

Definition gmp_instance : Script.instance :=
  match fst gmp_built with
  | Returned inst => inst
  | Raised _ => Script.mkInstance Script.LibGMP []
  end.

End Samples.

(** * Properties *)

Import Utils.

Create HintDb weaver discriminated.

Ltac unfold_monad :=
  unfold py_and, py_or, Ret_new, bind, ret, raise, lift in *.

(** ** Building and testing execution results *)

Lemma Ret_init_empty :
  Ret_init [] [] = Returned (mkRet (PyList []) (PyInt 0) (PyList []) (PyList [])).
Proof. reflexivity. Qed.

Lemma Ret_init_int (n : Z) :
  Ret_init [PyInt n] []
  = Returned (mkRet (PyList []) (PyInt n) (PyList []) (PyList [])).
Proof. reflexivity. Qed.

(** Called with keywords only, the initialiser reads [args[0]] of an empty
    tuple. *)
Lemma Ret_init_keywords_only (k : string) (v : pyval) (kw : kwargs) :
  Ret_init [] ((k, v) :: kw) = Raised IndexError.
Proof. reflexivity. Qed.

(** Called with one [CompletedProcess], it calls the base initialiser
    without a return code. *)
Lemma Ret_init_completed (a r o e : pyval) :
  Ret_init [PyCompleted a r o e] [] = Raised TypeError.
Proof. reflexivity. Qed.

(** [run] hands the command to [subprocess.run] and never returns a
    result. *)
Lemma run_raises (cmd : pyval) (args : list pyval) (kw : kwargs) (w : world) :
  exists e,
    run cmd args kw w
    = (Raised e, set_calls (calls w ++ [Call (cmd :: args) kw]) w).
Proof.
  unfold run, spawn. unfold_monad.
  destruct (subprocess_run (os w) _ (calls w) (cwd w)) as [x | e]; eauto.
Qed.

Lemma py_and_falsy (a b : M world Ret) (w w' : world) (r : Ret) :
  a w = (Returned r, w') -> Ret_bool r = false ->
  py_and a b w = (Returned r, w').
Proof. intros Ha Hr. unfold_monad. now rewrite Ha, Hr. Qed.

Lemma py_and_truthy (a b : M world Ret) (w w' : world) (r : Ret) :
  a w = (Returned r, w') -> Ret_bool r = true -> py_and a b w = b w'.
Proof. intros Ha Hr. unfold_monad. now rewrite Ha, Hr. Qed.

Lemma py_and_raised (a b : M world Ret) (w w' : world) (e : exn) :
  a w = (Raised e, w') -> py_and a b w = (Raised e, w').
Proof. intros Ha. unfold_monad. now rewrite Ha. Qed.

Lemma py_or_falsy (a b : M world Ret) (w w' : world) (r : Ret) :
  a w = (Returned r, w') -> Ret_bool r = false -> py_or a b w = b w'.
Proof. intros Ha Hr. unfold_monad. now rewrite Ha, Hr. Qed.

Lemma py_or_truthy (a b : M world Ret) (w w' : world) (r : Ret) :
  a w = (Returned r, w') -> Ret_bool r = true ->
  py_or a b w = (Returned r, w').
Proof. intros Ha Hr. unfold_monad. now rewrite Ha, Hr. Qed.

Lemma py_or_raised (a b : M world Ret) (w w' : world) (e : exn) :
  a w = (Raised e, w') -> py_or a b w = (Raised e, w').
Proof. intros Ha. unfold_monad. now rewrite Ha. Qed.

#[global] Hint Resolve py_and_falsy py_and_raised py_or_truthy py_or_raised
  : weaver.

(** A chain ends at the first operand whose status is zero, whatever
    follows it, and at the first operand that raises. *)
Lemma and_chain_falsy (rest : list (M world Ret)) (first : M world Ret)
    (w w' : world) (r : Ret) :
  first w = (Returned r, w') -> Ret_bool r = false ->
  and_chain first rest w = (Returned r, w').
Proof.
  revert first. induction rest as [| s rest IH]; intros first Hf Hr; simpl.
  - exact Hf.
  - apply IH; eauto with weaver.
Qed.

Lemma and_chain_raised (rest : list (M world Ret)) (first : M world Ret)
    (w w' : world) (e : exn) :
  first w = (Raised e, w') -> and_chain first rest w = (Raised e, w').
Proof.
  revert first. induction rest as [| s rest IH]; intros first Hf; simpl.
  - exact Hf.
  - apply IH; eauto with weaver.
Qed.

(** A chain depends on its first operand only through what that operand
    does in the world at hand. *)
Lemma and_chain_from (rest : list (M world Ret)) (a b : M world Ret)
    (w w' : world) :
  a w = b w' -> and_chain a rest w = and_chain b rest w'.
Proof.
  revert a b. induction rest as [| s rest IH]; intros a b Hab; simpl.
  - exact Hab.
  - apply IH. unfold_monad. now rewrite Hab.
Qed.

(** After an operand with a non-zero status the chain goes on with the
    next one. *)
Lemma and_chain_truthy (rest : list (M world Ret)) (first s : M world Ret)
    (w w' : world) (r : Ret) :
  first w = (Returned r, w') -> Ret_bool r = true ->
  and_chain first (s :: rest) w = and_chain s rest w'.
Proof.
  intros Hf Hr. simpl. apply and_chain_from.
  now apply py_and_truthy with (r := r).
Qed.

(** ** Truth value of a result (C1) *)

(** C1, as the specification words it, fails: the result of a command that
    exited with status 0 converts to [False], and the result of a command
    that exited with status 1 converts to [True]. *)
Lemma C1_zero_status_is_falsy :
  Ret_init [] [] = Returned (mkRet (PyList []) (PyInt 0) (PyList []) (PyList []))
  /\ Ret_bool (mkRet (PyList []) (PyInt 0) (PyList []) (PyList [])) = false
  /\ Ret_bool (mkRet (PyList []) (PyInt 1) (PyList []) (PyList [])) = true.
Proof. repeat split. Qed.

(** C1, amended: a result is truthy exactly when its exit status is not
    zero ("Return true if we contain an error").  A result with status zero
    ends a chain of [and]: the right operand is not evaluated and the chain
    has that result.  A result with a non-zero status lets the chain go on
    with the right operand. *)
Theorem C1_truthy_iff_error (r : Ret) (n : Z) :
  returncode r = PyInt n ->
  Ret_bool r = negb (Z.eqb n 0)
  /\ (n = 0 -> forall (k : M world Ret) (w : world),
        py_and (ret r) k w = (Returned r, w))
  /\ (n <> 0 -> forall (k : M world Ret) (w : world),
        py_and (ret r) k w = k w).
Proof.
  intros Hn.
  assert (Hb : Ret_bool r = negb (Z.eqb n 0))
    by (unfold Ret_bool; now rewrite Hn).
  split; [exact Hb |]. split.
  - intros -> k w. now apply py_and_falsy with (w' := w).
  - intros Hne k w. apply py_and_truthy with (r := r); [reflexivity |].
    rewrite Hb. apply negb_true_iff. now apply Z.eqb_neq.
Qed.

Lemma C1_truthy_iff_error_witness :
  returncode (mkRet (PyList []) (PyInt 2) PyNone PyNone) = PyInt 2
  /\ Ret_bool (mkRet (PyList []) (PyInt 2) PyNone PyNone) = true
  /\ py_and (ret (mkRet (PyList []) (PyInt 2) PyNone PyNone))
            (Ret_new [PyInt 7] []) (Inputs.fresh Inputs.quiet)
     = Ret_new [PyInt 7] [] (Inputs.fresh Inputs.quiet).
Proof.
  pose proof (C1_truthy_iff_error
                (mkRet (PyList []) (PyInt 2) PyNone PyNone) 2 eq_refl)
    as [Hb [_ Hgo]].
  split; [reflexivity |]. split; [exact Hb |].
  apply Hgo. discriminate.
Defined.

(** ** The directory stack (C10) *)

(** C10: with an empty directory stack [popd] leaves the working directory
    and the stack as they are, but it does not return the failure result it
    builds: [Ret] is called with keywords only, and its initialiser raises
    [IndexError]. *)
Theorem C10_popd_empty_stack_raises (o : OS) (done : list call) (d : string) :
  popd (mkWorld o done d []) = (Raised IndexError, mkWorld o done d []).
Proof. reflexivity. Qed.

(** [cd] changes the directory and then raises in the same way. *)
Lemma cd_raises (path : string) (w : world) :
  exists e w', cd path w = (Raised e, w') /\ calls w' = calls w.
Proof.
  unfold cd. destruct (chdir (os w) (cwd w) path) as [d | e].
  - eexists _, _. split; reflexivity.
  - destruct e; eexists _, _; split; reflexivity.
Qed.

(** ** The lock wrapper (C8) *)

(** The keyword [kwargs] that [flock_try] adds is not one of the parameters
    of [flock]: the options of the command are those of the caller's own
    keywords. *)
Lemma flock_options_kwargs (v : pyval) (kw : kwargs) :
  flock_options (("kwargs", v) :: kw) = flock_options kw.
Proof. reflexivity. Qed.

Lemma flock_rest_kwargs (v : pyval) (kw : kwargs) :
  flock_rest (("kwargs", v) :: kw) = ("kwargs", v) :: flock_rest kw.
Proof. reflexivity. Qed.


(** The call that guards a clone: the command line is
    [flock /source/gcc.git git --bare ...], with neither [-n] nor [-x]. *)
Example flock_try_clone_call :
  calls (snd (flock_try "/source/gcc.git" [PyStr "git"; PyStr "--bare"]
                        [("exlusive", PyBool true)] (Inputs.fresh Inputs.quiet)))
  = [Call [PyStr "flock"; PyStr "/source/gcc.git"; PyStr "git"; PyStr "--bare"]
          [("kwargs", PyDict [("exlusive", PyBool true);
                              ("nonblock", PyBool true)]);
           ("exlusive", PyBool true)]].
Proof. reflexivity. Qed.

(** ** Chains of steps (C2) *)

(** C2: a chain of [and] does not stop at a failing step.  After a step
    that reports failure ([Ret(FAILURE)]) the next step is carried out and
    the chain continues from it; a step that reports success ([Ret(SUCCESS)],
    what every default hook returns) ends the chain, and none of the later
    steps is carried out.  In [configure] itself the first step spawns
    [mkdir] and then raises: the stage returns no result at all. *)
Theorem C2_chain_goes_on_after_failure (w : world) (s : M world Ret)
    (rest : list (M world Ret)) (build_dir : string)
    (configure_cmd configure_args : list pyval) (configure_env : pyval)
    (pre post : M world Ret) :
  and_chain (Ret_new [PyInt FAILURE] []) (s :: rest) w = and_chain s rest w
  /\ and_chain (Ret_new [PyInt SUCCESS] []) (s :: rest) w
     = (Returned (mkRet (PyList []) (PyInt 0) (PyList []) (PyList [])), w)
  /\ exists e,
       Weaver.configure_chain build_dir configure_cmd configure_args
                              configure_env pre post w
       = (Raised e,
          set_calls
            (calls w ++
               [Call [PyList [PyStr "mkdir"; PyStr "-p"; PyStr build_dir]] []])
            w).
Proof.
  split; [| split].
  - now apply and_chain_truthy
      with (r := mkRet (PyList []) (PyInt 1) (PyList []) (PyList [])).
  - now apply and_chain_falsy.
  - destruct (run_raises
                (PyList [PyStr "mkdir"; PyStr "-p"; PyStr build_dir]) [] [] w)
      as [e He].
    exists e. unfold Weaver.configure_chain. now apply and_chain_raised.
Qed.

(** A stage whose directory cannot be made: the failing first step is
    followed by the second one, whose result the chain then reports. *)
Example chain_after_failed_step :
  and_chain (Ret_new [PyInt FAILURE] [])
            [Ret_new [PyInt SUCCESS] []; Ret_new [PyInt 5] []]
            (Inputs.fresh Inputs.mkdir_fails)
  = (Returned (mkRet (PyList []) (PyInt 0) (PyList []) (PyList [])),
     Inputs.fresh Inputs.mkdir_fails).
Proof. reflexivity. Qed.

(** ** The source repository cache (C4, C5) *)

(** The condition of [update]: when the test for the mirror directory
    reports success, [initial_fetch] is evaluated next. *)
Lemma update_chain_present (test fetch_first push fetch pop : M world Ret)
    (w w' : world) (r : Ret) :
  test w = (Returned r, w') -> Ret_bool r = false ->
  Weaver.update_chain test fetch_first push fetch pop w
  = and_chain fetch_first [push; fetch; pop] w'.
Proof.
  intros Ht Hr. unfold Weaver.update_chain. apply and_chain_from.
  now apply py_or_falsy with (r := r).
Qed.

(** When the test reports failure, [initial_fetch] is skipped and the chain
    goes on with [pushd]. *)
Lemma update_chain_absent (test fetch_first push fetch pop : M world Ret)
    (w w' : world) (r : Ret) :
  test w = (Returned r, w') -> Ret_bool r = true ->
  Weaver.update_chain test fetch_first push fetch pop w
  = and_chain push [fetch; pop] w'.
Proof.
  intros Ht Hr. unfold Weaver.update_chain.
  apply and_chain_truthy with (r := r); [| exact Hr].
  now apply py_or_truthy.
Qed.



(** ** Default arguments of a project class (C7, C9) *)

Lemma read_extend (l x : Script.loc) (v : list string)
    (h : gmap string (list string)) :
  Script.read (Script.extend l v h) x
  = if decide (l = x) then Script.read h l ++ v else Script.read h x.
Proof.
  unfold Script.extend, Script.read. rewrite lookup_total_insert.
  reflexivity.
Qed.

(** An accessor returns the list object that [getattr] finds for the
    class, whatever the store holds, and it does not raise. *)
Lemma default_list_returns (sel : Script.class_body -> option Script.loc)
    (c : Script.pyclass) (h : gmap string (list string)) :
  exists h',
    Script.default_list sel c h = (Returned (Script.getattr sel "" c), h').
Proof.
  revert h. induction c as [| b base IH]; intros h; simpl;
    unfold bind, Script.iadd_fresh, Script.iadd, ret.
  - eexists. reflexivity.
  - destruct (IH h) as [h1 E]. rewrite E. eexists. reflexivity.
Qed.

(** The accessor of a derived class: the parent's list is resolved first,
    then appended in place to the list of the class. *)
Lemma default_list_sub (sel : Script.class_body -> option Script.loc)
    (b : Script.class_body) (base : Script.pyclass)
    (h h1 : gmap string (list string)) (r : Script.loc) :
  Script.default_list sel base h = (Returned r, h1) ->
  Script.default_list sel (Script.Subclass b base) h
  = (Returned (Script.getattr sel "" (Script.Subclass b base)),
     Script.extend (Script.getattr sel "" (Script.Subclass b base))
                   (Script.read h1 r) h1).
Proof.
  intros E. simpl. unfold bind, Script.iadd, ret. now rewrite E.
Qed.

(** No list of the store gets shorter. *)
Lemma default_list_grows (sel : Script.class_body -> option Script.loc)
    (c : Script.pyclass) (h : gmap string (list string)) (x : Script.loc) :
  (length (Script.read h x)
   <= length (Script.read (snd (Script.default_list sel c h)) x))%nat.
Proof.
  revert h. induction c as [| b base IH]; intros h.
  - simpl. unfold bind, Script.iadd_fresh, ret. simpl.
    rewrite read_extend. case_decide; subst; rewrite ?length_app; lia.
  - destruct (default_list_returns sel base h) as [h1 E].
    rewrite (default_list_sub sel b base h h1 _ E). simpl.
    specialize (IH h). rewrite E in IH. simpl in IH.
    rewrite read_extend. case_decide; subst; rewrite ?length_app; lia.
Qed.

(** Longer lists in, longer lists out. *)
Lemma default_list_mono (sel : Script.class_body -> option Script.loc)
    (c : Script.pyclass) (h h' : gmap string (list string)) :
  (forall x, length (Script.read h x) <= length (Script.read h' x))%nat ->
  forall x,
    (length (Script.read (snd (Script.default_list sel c h)) x)
     <= length (Script.read (snd (Script.default_list sel c h')) x))%nat.
Proof.
  revert h h'. induction c as [| b base IH]; intros h h' Hle x.
  - simpl. unfold bind, Script.iadd_fresh, ret. simpl.
    rewrite !read_extend. case_decide; rewrite ?length_app; simpl.
    + specialize (Hle (Script.getattr sel "" Script.MakeProject)). simpl in Hle.
      lia.
    + apply Hle.
  - destruct (default_list_returns sel base h) as [h1 E].
    destruct (default_list_returns sel base h') as [h1' E'].
    rewrite (default_list_sub sel b base h h1 _ E).
    rewrite (default_list_sub sel b base h' h1' _ E'). simpl.
    specialize (IH h h' Hle). rewrite E, E' in IH. simpl in IH.
    rewrite !read_extend. case_decide; rewrite ?length_app.
    + pose proof (IH (Script.getattr sel "" (Script.Subclass b base))).
      pose proof (IH (Script.getattr sel "" base)). simpl in *. lia.
    + apply IH.
Qed.

(** C9: the accessor of default arguments keeps state.  For a class that
    binds its own [_default_config] list and whose parent resolves to a
    non-empty list, a call appends the inherited entries in place to that
    stored list and returns it; a second call returns the same object,
    strictly longer than after the first, so two resolutions of one class
    give different argument lists. *)
Theorem C9_default_config_grows (body : Script.class_body)
    (base : Script.pyclass) (l r : Script.loc)
    (h h1 : gmap string (list string)) :
  Script._default_config body = Some l ->
  Script.default_config base h = (Returned r, h1) ->
  Script.read h1 r <> [] ->
  exists h2 h3,
    Script.default_config (Script.Subclass body base) h = (Returned l, h2)
    /\ Script.read h2 l = Script.read h1 l ++ Script.read h1 r
    /\ Script.default_config (Script.Subclass body base) h2 = (Returned l, h3)
    /\ (length (Script.read h2 l) < length (Script.read h3 l))%nat
    /\ Script.read h3 l <> Script.read h2 l.
Proof.
  intros Hl E Hne. unfold Script.default_config in *.
  assert (Hg : Script.getattr Script._default_config ""
                 (Script.Subclass body base) = l)
    by (simpl; now rewrite Hl).
  pose proof (default_list_sub _ body base h h1 r E) as E1.
  rewrite Hg in E1.
  set (h2 := Script.extend l (Script.read h1 r) h1) in *.
  destruct (default_list_returns Script._default_config base h2) as [h1' E'].
  pose proof (default_list_sub _ body base h2 h1' _ E') as E2.
  rewrite Hg in E2.
  assert (Hr : Script.getattr Script._default_config "" base = r).
  { destruct (default_list_returns Script._default_config base h) as [x Hx].
    rewrite Hx in E. now inversion E. }
  rewrite Hr in *.
  assert (H2l : Script.read h2 l = Script.read h1 l ++ Script.read h1 r).
  { unfold h2. rewrite read_extend. now rewrite decide_True. }
  assert (Hlt : (length (Script.read h2 l)
                 < length (Script.read
                             (Script.extend l (Script.read h1' r) h1') l))%nat).
  { rewrite read_extend, decide_True by reflexivity. rewrite length_app.
    pose proof (default_list_grows Script._default_config base h2 l) as G1.
    rewrite E' in G1. simpl in G1.
    assert (Hh : forall x, (length (Script.read h x)
                            <= length (Script.read h2 x))%nat).
    { intros x. pose proof (default_list_grows Script._default_config base h x)
        as G. rewrite E in G. simpl in G.
      unfold h2. rewrite read_extend. case_decide; subst;
        rewrite ?length_app; lia. }
    pose proof (default_list_mono Script._default_config base h h2 Hh r) as G2.
    rewrite E, E' in G2. simpl in G2.
    assert (0 < length (Script.read h1 r))%nat
      by (destruct (Script.read h1 r); [congruence | simpl; lia]).
    lia. }
  exists h2, (Script.extend l (Script.read h1' r) h1').
  repeat split; try assumption.
  intros Heq. rewrite Heq in Hlt. lia.
Qed.

Lemma C9_default_config_grows_witness :
  exists h2 h3,
    Script.default_config Script.LibGMP Script.loaded
    = (Returned "LibGMP._default_config", h2)
    /\ Script.read h2 "LibGMP._default_config"
       = ["--enable-cxx"] ++ ["--disable-static"; "--prefix={prefix}"]
    /\ Script.default_config Script.LibGMP h2
       = (Returned "LibGMP._default_config", h3)
    /\ (length (Script.read h2 "LibGMP._default_config")
        < length (Script.read h3 "LibGMP._default_config"))%nat
    /\ Script.read h3 "LibGMP._default_config"
       <> Script.read h2 "LibGMP._default_config".
Proof.
  apply (C9_default_config_grows
           (Script.mkBody (Some "LibGMP._default_config") None None None None)
           Script.ToolchainSupportLib "LibGMP._default_config"
           "ToolchainSupportLib._default_config" Script.loaded
           (snd (Script.default_config Script.ToolchainSupportLib
                                       Script.loaded))).
  - reflexivity.
  - vm_compute. reflexivity.
  - vm_compute. discriminate.
Defined.

(** The environment accessor raises for [MakeProject], where the fallback
    [lambda: []] puts a list on the left of [|], and so for every class
    derived from it. *)
Lemma default_config_env_raises (c : Script.pyclass) :
  Script.default_config_env c = Raised TypeError.
Proof.
  induction c as [| b base IH]; simpl.
  - reflexivity.
  - now rewrite IH.
Qed.

(** C7: the environment of a class is never resolved: [default_config_env]
    raises [TypeError] for every class.  The argument list of [LibGMP] is
    its own entry followed by the inherited ones on the first call only;
    on the second call the inherited entries are there twice. *)
Theorem C7_defaults_beside_the_merge (c : Script.pyclass) :
  Script.default_config_env c = Raised TypeError
  /\ Script.read (snd (Script.default_config Script.LibGMP Script.loaded))
                 "LibGMP._default_config"
     = ["--enable-cxx"; "--disable-static"; "--prefix={prefix}"]
  /\ Script.read
       (snd (Script.default_config Script.LibGMP
               (snd (Script.default_config Script.LibGMP Script.loaded))))
       "LibGMP._default_config"
     = ["--enable-cxx"; "--disable-static"; "--prefix={prefix}";
        "--disable-static"; "--prefix={prefix}"].
Proof.
  split; [apply default_config_env_raises |].
  split; vm_compute; reflexivity.
Qed.

(** On a dictionary the operator does merge, and the right operand, which
    the accessor reserves for the subclass, wins on a shared key. *)
Example dict_merge_right_wins :
  py_bitor (PyDict [("CC", PyStr "{cc}"); ("LD", PyStr "{linker}")])
           (PyDict [("CC", PyStr "clang")])
  = Returned (PyDict [("CC", PyStr "clang"); ("LD", PyStr "{linker}")]).
Proof. reflexivity. Qed.

(** ** Conflicting options (C6) *)



(** ** The configure stage of the script *)

(** [configure] always ends in an exception before its chain of steps is
    reached: no command is spawned. *)
Lemma configure_raises (format : string -> kwargs -> outcome string)
    (self : Script.instance) (s : Script.state) :
  exists e s',
    Script.configure format self s = (Raised e, s')
    /\ Script.sys s' = Script.sys s.
Proof.
  unfold Script.configure, bind, lift, Script.in_store.
  destruct (Script.attr self "source_dir") as [sd | e]; [| eauto].
  destruct (path_div sd (PyStr "configure")) as [p | e]; [| eauto].
  destruct (default_list_returns Script._default_config (Script.class_of self)
              (Script.store s)) as [h' E].
  unfold Script.default_config. rewrite E. simpl.
  destruct (Script.attr self "config") as [cfg | e]; [| eauto].
  destruct (Script.list_add _ cfg) as [t | e]; [| eauto].
  destruct (Script.format_all format (Script.dict self) t) as [x | e];
    [| eauto].
  rewrite default_config_env_raises. eauto.
Qed.

(** ** The build identity (C3) *)

(** Were bytes fed to the hash object, two successive arguments would run
    together: nothing separates them. *)
Lemma sha256_update_bytes (h a b : string) :
  match Script.sha256_update h (PyBytes a) with
  | Returned h' => Script.sha256_update h' (PyBytes b)
  | Raised e => Raised e
  end
  = Script.sha256_update h (PyBytes (a +:+ b)).
Proof.
  unfold Script.sha256_update. f_equal.
  induction h as [| c h IH]; [reflexivity |].
  change (String c ((h +:+ a) +:+ b) = String c (h +:+ a +:+ b)).
  now f_equal.
Qed.

Example hash_of_nothing :
  Script.hash_build_config []
  = Returned (PyBytes (Sha256.digest "")).
Proof. reflexivity. Qed.

Example sha256_abc :
  Sha256.bytes_of (Sha256.digest "abc")
  = [186; 120; 22; 191; 143; 1; 207; 234; 65; 65; 64; 222; 93; 174; 34; 35;
     176; 3; 97; 163; 150; 23; 122; 156; 180; 16; 255; 97; 242; 0; 21; 173].
Proof. vm_compute. reflexivity. Qed.

(** C3: no build identity is computed.  [hash_build_config] hands the
    [str] of its first argument to the hash object, which takes bytes only,
    and raises [TypeError]; so do two equal configurations and two
    different ones alike, and no prefix is derived from either. *)
Theorem C3_no_build_identity (arg target : pyval) (argv : list pyval) :
  Script.hash_build_config (arg :: argv) = Raised TypeError
  /\ Script.build_prefix target (arg :: argv) = Raised TypeError
  /\ Script.build_prefix target [] = Raised TypeError.
Proof.
  repeat split.
  unfold Script.build_prefix. simpl.
  destruct target; reflexivity.
Qed.

(** In the script the conversion of a result to a truth value raises: its
    [__bool__] returns [None]. *)
Lemma script_truth_raises (r : Ret) : Script.truth r = Raised TypeError.
Proof. reflexivity. Qed.

(** * Further properties of the code *)

(** ** Strings *)

Lemma str_app_cons (c : ascii) (a b : string) :
  String c a +:+ b = String c (a +:+ b).
Proof. reflexivity. Qed.

Lemma str_app_assoc (a b c : string) : (a +:+ b) +:+ c = a +:+ b +:+ c.
Proof.
  induction a as [| x a IH]; [reflexivity |].
  rewrite !str_app_cons. now f_equal.
Qed.

Lemma str_app_nil_r (a : string) : a +:+ "" = a.
Proof.
  induction a as [| x a IH]; [reflexivity |].
  rewrite str_app_cons. now f_equal.
Qed.

Lemma str_length_app (a b : string) :
  String.length (a +:+ b) = (String.length a + String.length b)%nat.
Proof.
  induction a as [| x a IH]; [reflexivity |].
  rewrite str_app_cons. simpl. now f_equal.
Qed.

Lemma str_chars_app (a b : string) :
  list_ascii_of_string (a +:+ b)
  = list_ascii_of_string a ++ list_ascii_of_string b.
Proof.
  induction a as [| x a IH]; [reflexivity |].
  rewrite str_app_cons. simpl. now f_equal.
Qed.

Lemma str_chars_inj (a b : string) :
  list_ascii_of_string a = list_ascii_of_string b -> a = b.
Proof.
  intros H. rewrite <- (string_of_list_ascii_of_string a),
              <- (string_of_list_ascii_of_string b). now rewrite H.
Qed.

Lemma str_app_inv_tail (a b s : string) : a +:+ s = b +:+ s -> a = b.
Proof.
  intros H. apply str_chars_inj.
  apply (f_equal list_ascii_of_string) in H. rewrite !str_chars_app in H.
  now apply app_inv_tail in H.
Qed.

(** ** Building results, once more: what [Ret] can be built from *)

Lemma bind_positional_keys (params : list string) (pos : list pyval)
    (b : kwargs) :
  bind_positional params pos = Returned b ->
  map fst b = firstn (length pos) params.
Proof.
  revert params b. induction pos as [| v pos IH]; intros params b H.
  - simpl in H. destruct params; now inversion H.
  - destruct params as [| p params]; simpl in H; [discriminate |].
    destruct (bind_positional params pos) as [b' |] eqn:E; [| discriminate].
    inversion H; subst. simpl. f_equal. now apply IH.
Qed.

Lemma bind_keywords_keys (params : list string) (kw bound b : kwargs) :
  bind_keywords params bound kw = Returned b ->
  map fst b = map fst bound ++ map fst kw.
Proof.
  revert bound b. induction kw as [| [k v] kw IH]; intros bound b H; simpl in H.
  - inversion H. now rewrite app_nil_r.
  - destruct (negb (existsb (String.eqb k) params)); [discriminate |].
    destruct (dict_has k bound); [discriminate |].
    apply IH in H. rewrite H, map_app. simpl. now rewrite <- app_assoc.
Qed.

Lemma dict_get_key (k : string) (d : kwargs) (v : pyval) :
  dict_get k d = Some v -> In k (map fst d).
Proof.
  induction d as [| [k' v'] d IH]; simpl; [discriminate |].
  destruct (String.eqb_spec k k') as [-> | Hne]; intros H.
  - now left.
  - right. now apply IH.
Qed.

Lemma dict_has_key (k : string) (d : kwargs) :
  In k (map fst d) -> dict_has k d = true.
Proof.
  unfold dict_has. induction d as [| [k' v'] d IH]; simpl; [tauto |].
  destruct (String.eqb_spec k k') as [-> | Hne]; [reflexivity |].
  intros [H | H]; [congruence | now apply IH].
Qed.

(** The base initialiser returns only when a return code was given, as the
    second positional value or by keyword. *)
Lemma CompletedProcess_init_returncode (pos : list pyval) (kw : kwargs)
    (r : Ret) :
  CompletedProcess_init pos kw = Returned r ->
  (2 <= length pos)%nat \/ dict_has "returncode" kw = true.
Proof.
  unfold CompletedProcess_init, bind_call. intros H.
  destruct (bind_positional _ pos) as [b0 |] eqn:E0; [| discriminate].
  destruct (bind_keywords _ b0 kw) as [b |] eqn:E1; [| discriminate].
  destruct (dict_get "args" b); [| discriminate].
  destruct (dict_get "returncode" b) as [rc |] eqn:Erc; [| discriminate].
  apply dict_get_key in Erc.
  rewrite (bind_keywords_keys _ _ _ _ E1), in_app_iff in Erc.
  rewrite (bind_positional_keys _ _ _ E0) in Erc.
  destruct Erc as [Hp | Hk].
  - left. destruct pos as [| a [| a' pos]]; simpl in Hp |- *.
    + destruct Hp.
    + destruct Hp as [Hp | []]. discriminate Hp.
    + lia.
  - right. now apply dict_has_key.
Qed.

(** [Ret.__init__]: a result is built from no argument at all (status 0),
    from one integer alone (that status), or from a first positional value
    together with a return code; never from keywords alone, and never from
    a [CompletedProcess] alone. *)
Theorem Ret_init_returns_from (pos : list pyval) (kw : kwargs) (r : Ret) :
  Ret_init pos kw = Returned r ->
  (pos = [] /\ kw = [] /\ returncode r = PyInt 0)
  \/ (exists a0, pos = [a0] /\ kw = [] /\ is_int a0 = true
                 /\ returncode r = a0)
  \/ (pos <> [] /\ ((2 <= length pos)%nat \/ dict_has "returncode" kw = true)).
Proof.
  intros H. destruct pos as [| a0 rest].
  - destruct kw as [| kv kw]; [| destruct kv; discriminate H].
    left. inversion H. auto.
  - assert (Hgen : Ret_init (a0 :: rest) kw
              = if is_int a0 && Nat.eqb (length (a0 :: rest)) 1
                   && negb (py_truth (PyDict kw))
                then Returned (mkRet (PyList []) a0 (PyList []) (PyList []))
                else CompletedProcess_init (a0 :: rest) kw).
    { unfold Ret_init. destruct kw;
        destruct (is_int a0 && Nat.eqb (length (a0 :: rest)) 1
                  && negb (py_truth (PyDict _))); try reflexivity;
        destruct a0; reflexivity. }
    rewrite Hgen in H.
    destruct (is_int a0 && Nat.eqb (length (a0 :: rest)) 1
              && negb (py_truth (PyDict kw))) eqn:Hc.
    + right. left. apply andb_prop in Hc as [Hc Hk].
      apply andb_prop in Hc as [Hi Hl].
      destruct rest; [| discriminate Hl]. destruct kw; [| discriminate Hk].
      exists a0. inversion H. auto.
    + right. right. split; [discriminate |].
      now apply CompletedProcess_init_returncode in H.
Qed.

Lemma Ret_init_returns_from_witness :
  Ret_init [PyList [PyStr "true"]; PyInt 3] []
  = Returned (mkRet (PyList [PyStr "true"]) (PyInt 3) PyNone PyNone)
  /\ ([PyList [PyStr "true"]; PyInt 3] <> []
      /\ ((2 <= length [PyList [PyStr "true"]; PyInt 3])%nat
          \/ dict_has "returncode" [] = true)).
Proof.
  split; [reflexivity |].
  destruct (Ret_init_returns_from [PyList [PyStr "true"]; PyInt 3] []
              (mkRet (PyList [PyStr "true"]) (PyInt 3) PyNone PyNone) eq_refl)
    as [[H _] | [[a0 [H _]] | H]]; [discriminate H | discriminate H | exact H].
Defined.


(** ** The directory stack *)

Lemma cd_state (path : string) (w : world) :
  returned (fst (cd path w)) = false
  /\ snd (cd path w)
     = match chdir (os w) (cwd w) path with
       | Returned d => set_cwd d w
       | Raised _ => w
       end.
Proof.
  unfold cd. destruct (chdir (os w) (cwd w) path) as [d | e].
  - split; reflexivity.
  - destruct e; split; reflexivity.
Qed.

(** [pushd] saves the working directory before it tries to change it: the
    stack is one entry longer afterwards, with the former directory on
    top, also when the target does not exist; the working directory is the
    one [os.chdir] moved to, if it did; nothing is spawned, and no result
    comes back. *)
Theorem pushd_always_pushes (path : string) (w : world) :
  returned (fst (pushd path w)) = false
  /\ previous_paths (snd (pushd path w)) = previous_paths w ++ [cwd w]
  /\ calls (snd (pushd path w)) = calls w
  /\ cwd (snd (pushd path w))
     = match chdir (os w) (cwd w) path with
       | Returned d => d
       | Raised _ => cwd w
       end.
Proof.
  unfold pushd.
  destruct (cd_state path
              (set_previous_paths (previous_paths w ++ [cwd w]) w))
    as [Hr Hs].
  rewrite Hr, Hs. simpl.
  destruct (chdir (os w) (cwd w) path); repeat split; reflexivity.
Qed.

Lemma list_pop_snoc {A} (l : list A) (x : A) : list_pop (l ++ [x]) = Some (x, l).
Proof. unfold list_pop. rewrite rev_app_distr. simpl. now rewrite rev_involutive. Qed.

(** [popd] after [pushd]: the stack is what it was before the [pushd], and
    the process is taken back to the directory that was saved, if
    [os.chdir] can still go there. *)
Theorem popd_after_pushd (path : string) (w : world) :
  previous_paths (snd (popd (snd (pushd path w)))) = previous_paths w
  /\ cwd (snd (popd (snd (pushd path w))))
     = match chdir (os w) (cwd (snd (pushd path w))) (cwd w) with
       | Returned d => d
       | Raised _ => cwd (snd (pushd path w))
       end
  /\ calls (snd (popd (snd (pushd path w)))) = calls w.
Proof.
  unfold pushd.
  destruct (cd_state path (set_previous_paths (previous_paths w ++ [cwd w]) w))
    as [_ Hs].
  rewrite Hs. clear Hs. simpl.
  set (w1 := match chdir (os w) (cwd w) path with
             | Returned d =>
                 set_cwd d (set_previous_paths (previous_paths w ++ [cwd w]) w)
             | Raised _ => set_previous_paths (previous_paths w ++ [cwd w]) w
             end).
  assert (Hp : previous_paths w1 = previous_paths w ++ [cwd w])
    by (unfold w1; destruct (chdir (os w) (cwd w) path); reflexivity).
  assert (Ho : os w1 = os w)
    by (unfold w1; destruct (chdir (os w) (cwd w) path); reflexivity).
  assert (Hc : calls w1 = calls w)
    by (unfold w1; destruct (chdir (os w) (cwd w) path); reflexivity).
  unfold popd. rewrite Hp, list_pop_snoc.
  destruct (cd_state (cwd w) (set_previous_paths (previous_paths w) w1))
    as [_ Hs].
  rewrite Hs. simpl. rewrite Ho.
  destruct (chdir (os w) (cwd w1) (cwd w)); simpl; auto.
Qed.

(** ** The options of [flock] *)

Lemma kwarg_other (name k : string) (v : pyval) (kw : kwargs) :
  name <> k -> kwarg name ((k, v) :: kw) = kwarg name kw.
Proof.
  intros Hne. unfold kwarg. simpl.
  destruct (String.eqb_spec name k); [contradiction | reflexivity].
Qed.

(** A keyword that is not one of the eight parameters of [flock], such as
    the [exlusive] that [clone] and [update] pass, changes no option of the
    command and goes on to [subprocess.run]. *)
Theorem flock_unknown_keyword (k : string) (v : pyval) (kw : kwargs) :
  ~ In k flock_params ->
  flock_options ((k, v) :: kw) = flock_options kw
  /\ flock_rest ((k, v) :: kw) = (k, v) :: flock_rest kw.
Proof.
  intros Hk. split.
  - unfold flock_options.
    rewrite !kwarg_other; [reflexivity | ..];
      intros <-; apply Hk; unfold flock_params; simpl; tauto.
  - destruct (existsb (String.eqb k) flock_params) eqn:E.
    + exfalso. apply Hk. apply existsb_exists in E as [x [Hx Hxk]].
      apply String.eqb_eq in Hxk. now subst.
    + unfold flock_rest. unfold flock_params in E. simpl in E |- *.
      now rewrite E.
Qed.

Lemma flock_unknown_keyword_witness :
  flock_options [("exlusive", PyBool true)] = []
  /\ flock_rest [("exlusive", PyBool true)] = [("exlusive", PyBool true)].
Proof.
  apply (flock_unknown_keyword "exlusive" (PyBool true) []).
  unfold flock_params. simpl.
  intros H. repeat (destruct H as [H | H]; [discriminate H |]). exact H.
Defined.

Lemma in_flag (x y : pyval) (b : bool) :
  In x (if b then [y] else []) <-> b = true /\ y = x.
Proof. destruct b; simpl; intuition congruence. Qed.


(** ** The value of a chain *)

Lemma last_cons_default {A} (l : list A) (x d d' : A) :
  List.last (x :: l) d = List.last (x :: l) d'.
Proof.
  revert x. induction l as [| y l IH]; intros x; [reflexivity |].
  change (List.last (y :: l) d = List.last (y :: l) d'). apply IH.
Qed.



(** ** Cloning: keywords and the default output directory *)

Lemma unpack_key_length (key : string) :
  match Weaver.unpack_key key with
  | Returned _ => String.length key = 2%nat
  | Raised e => e = ValueError /\ String.length key <> 2%nat
  end.
Proof.
  destruct key as [| a [| b [| c key]]]; simpl; auto.
Qed.

Lemma kw_options_cases (kw : kwargs) :
  match Weaver.kw_options kw with
  | Returned l =>
      Forall (fun kv => String.length (fst kv) = 2%nat) kw
      /\ length l = length kw
  | Raised e =>
      e = ValueError
      /\ Exists (fun kv => String.length (fst kv) <> 2%nat) kw
  end.
Proof.
  induction kw as [| [key v] kw IH]; simpl.
  - split; [constructor | reflexivity].
  - pose proof (unpack_key_length key) as Hk.
    destruct (Weaver.unpack_key key) as [[k x] | e].
    + destruct (Weaver.kw_options kw) as [l | e].
      * destruct IH as [Hf Hl]. split; [now constructor | simpl; now f_equal].
      * destruct IH as [-> Hex]. split; [reflexivity | now right].
    + destruct Hk as [-> Hk]. split; [reflexivity | now left].
Qed.

(** The options of a clone are built only from keywords whose names have
    exactly two characters, one option per keyword; any other name ends the
    construction with [ValueError]. *)
Theorem kw_options_two_characters (kw : kwargs) :
  match Weaver.kw_options kw with
  | Returned l =>
      Forall (fun kv => String.length (fst kv) = 2%nat) kw
      /\ length l = length kw
  | Raised e =>
      e = ValueError
      /\ Exists (fun kv => String.length (fst kv) <> 2%nat) kw
  end.
Proof. apply kw_options_cases. Qed.



Lemma last_segment_plain (b acc : string) :
  ~ In "/"%char (list_ascii_of_string b) ->
  Weaver.last_segment acc b = acc +:+ b.
Proof.
  revert acc. induction b as [| x b IH]; intros acc Hb; simpl.
  - now rewrite str_app_nil_r.
  - destruct (Ascii.eqb_spec x "/") as [-> | Hx].
    + exfalso. apply Hb. now left.
    + rewrite IH by (intros H; apply Hb; now right).
      now rewrite str_app_assoc.
Qed.

Lemma last_segment_after_slash (a b acc : string) :
  Weaver.last_segment acc (a +:+ "/" +:+ b) = Weaver.last_segment "" b.
Proof.
  revert acc. induction a as [| x a IH]; intros acc.
  - reflexivity.
  - rewrite str_app_cons. simpl. destruct (Ascii.eqb x "/"); apply IH.
Qed.

Lemma substring_prefix (s t : string) :
  substring 0 (String.length s) (s +:+ t) = s.
Proof.
  induction s as [| x s IH].
  - destruct t; reflexivity.
  - rewrite str_app_cons. simpl. now f_equal.
Qed.

Lemma substring_all (t : string) : substring 0 (String.length t) t = t.
Proof. rewrite <- (str_app_nil_r t) at 2. apply substring_prefix. Qed.

Lemma substring_suffix (s t : string) :
  substring (String.length s) (String.length t) (s +:+ t) = t.
Proof.
  induction s as [| x s IH].
  - apply substring_all.
  - rewrite str_app_cons. simpl. exact IH.
Qed.

Lemma removesuffix_app (suf s : string) :
  Weaver.removesuffix suf (s +:+ suf) = s.
Proof.
  unfold Weaver.removesuffix. rewrite str_length_app.
  replace (String.length s + String.length suf - String.length suf)%nat
    with (String.length s) by lia.
  rewrite substring_suffix, String.eqb_refl, substring_prefix.
  replace (Nat.leb _ _) with true; [reflexivity |].
  symmetry. apply Nat.leb_le. lia.
Qed.



Lemma last_segment_chars (s acc : string) (c : ascii) :
  In c (list_ascii_of_string (Weaver.last_segment acc s)) ->
  In c (list_ascii_of_string acc) \/ (c <> "/"%char).
Proof.
  revert acc. induction s as [| x s IH]; intros acc; simpl.
  - now left.
  - destruct (Ascii.eqb_spec x "/") as [-> | Hx]; intros H.
    + apply IH in H as [H | H]; [destruct H | now right].
    + apply IH in H as [H | H]; [| now right].
      rewrite str_chars_app, in_app_iff in H. destruct H as [H | H].
      * now left.
      * simpl in H. destruct H as [<- | []]. now right.
Qed.

Lemma substring_chars (s : string) (n m : nat) (c : ascii) :
  In c (list_ascii_of_string (substring n m s)) ->
  In c (list_ascii_of_string s).
Proof.
  revert n m. induction s as [| x s IH]; intros n m H.
  - destruct n, m; simpl in H; destruct H.
  - destruct n as [| n].
    + destruct m as [| m]; simpl in H; [destruct H |].
      destruct H as [H | H]; [now left | right; eauto].
    + simpl in H. right. eauto.
Qed.

(** The default output directory of a clone is a single component: it
    holds no slash, whatever the URL. *)
Theorem clone_default_output_one_component (url : string) :
  ~ In "/"%char
      (list_ascii_of_string
         (Weaver.removesuffix ".git" (Weaver.last_segment "" url))).
Proof.
  intros H.
  assert (Hl : In "/"%char
                 (list_ascii_of_string (Weaver.last_segment "" url))).
  { unfold Weaver.removesuffix in H.
    destruct (_ && _) in H; [now apply substring_chars in H | exact H]. }
  apply last_segment_chars in Hl as [[] | Hl]. now apply Hl.
Qed.

(** The two branches of the condition of [update], at concrete operands. *)
Lemma update_chain_present_witness :
  Weaver.update_chain (Ret_new [PyInt SUCCESS] []) (Ret_new [PyInt 7] [])
                      (Ret_new [PyInt 8] []) (Ret_new [PyInt 9] [])
                      (Ret_new [PyInt 0] []) (Inputs.fresh Inputs.quiet)
  = and_chain (Ret_new [PyInt 7] [])
              [Ret_new [PyInt 8] []; Ret_new [PyInt 9] []; Ret_new [PyInt 0] []]
              (Inputs.fresh Inputs.quiet).
Proof.
  apply (update_chain_present _ _ _ _ _ _ _
           (mkRet (PyList []) (PyInt 0) (PyList []) (PyList []))); reflexivity.
Defined.

Lemma update_chain_absent_witness :
  Weaver.update_chain (Ret_new [PyInt FAILURE] []) (Ret_new [PyInt 7] [])
                      (Ret_new [PyInt 8] []) (Ret_new [PyInt 9] [])
                      (Ret_new [PyInt 0] []) (Inputs.fresh Inputs.quiet)
  = and_chain (Ret_new [PyInt 8] [])
              [Ret_new [PyInt 9] []; Ret_new [PyInt 0] []]
              (Inputs.fresh Inputs.quiet).
Proof.
  apply (update_chain_absent _ _ _ _ _ _ _
           (mkRet (PyList []) (PyInt 1) (PyList []) (PyList []))); reflexivity.
Defined.

(** ** Architectures and triplets *)

(** The kernel name of an architecture is a fixed point of the mapping, and
    it is never [aarch64]. *)
Theorem map_arch_to_kernel_arch_settles (arch : string) :
  Arch.map_arch_to_kernel_arch (Arch.map_arch_to_kernel_arch arch)
  = Arch.map_arch_to_kernel_arch arch
  /\ Arch.map_arch_to_kernel_arch arch <> "aarch64".
Proof.
  unfold Arch.map_arch_to_kernel_arch. simpl.
  destruct (String.eqb_spec arch "aarch64") as [-> | Hne]; simpl.
  - split; [reflexivity | discriminate].
  - destruct (String.eqb_spec arch "aarch64"); [contradiction |].
    simpl. now split.
Qed.

(** For one organisation and one system, different architectures have
    different triplets. *)
Theorem make_triplet_arch_injective (a b org os : string) :
  Arch.make_triplet a org os = Arch.make_triplet b org os -> a = b.
Proof. unfold Arch.make_triplet. apply str_app_inv_tail. Qed.

Lemma make_triplet_arch_injective_witness :
  Arch.make_triplet "x86_64" "weaver" "linux-gnu" = "x86_64-weaver-linux-gnu"
  /\ "x86_64" = "x86_64".
Proof.
  split; [reflexivity |].
  apply (make_triplet_arch_injective "x86_64" "x86_64" "weaver" "linux-gnu").
  reflexivity.
Defined.

(** The three fields are not recoverable from a triplet: a hyphen may
    belong to either side of it. *)
Theorem make_triplet_hyphen (a b c os : string) :
  Arch.make_triplet (a +:+ "-" +:+ b) c os
  = Arch.make_triplet a (b +:+ "-" +:+ c) os.
Proof.
  unfold Arch.make_triplet. now rewrite !str_app_assoc.
Qed.

(** ** The list of versions *)

Lemma StronglySorted_strict {A} (R : relation A) (l : list A) :
  StronglySorted R l -> NoDup l ->
  StronglySorted (fun a b => R a b /\ a <> b) l.
Proof.
  induction 1 as [| a l Hs IH Hf]; intros Hnd; constructor.
  - apply IH. now apply NoDup_cons in Hnd as [_ ?].
  - apply NoDup_cons in Hnd as [Ha _].
    rewrite Forall_forall in Hf |- *. intros x Hx. split; [now apply Hf |].
    intros ->. now apply Ha.
Qed.

(** The versions of a listing come out in strictly descending order, each
    once, and they are exactly the versions of its lines. *)
Theorem versions_of_descending (text : string) :
  StronglySorted (fun a b => String.le b a /\ a <> b)
                 (Listing.versions_of text)
  /\ forall v,
       v ∈ Listing.versions_of text
       <-> exists line,
             line ∈ Listing.split_on Listing.newline "" text
             /\ v = Listing.version_of line.
Proof.
  unfold Listing.versions_of. split.
  - apply StronglySorted_strict.
    + apply StronglySorted_merge_sort.
      * intros x y z Hxy Hyz. unfold flip in *. now transitivity y.
      * intros x y. unfold flip. destruct (total String.le x y); auto.
    + rewrite merge_sort_Permutation. apply NoDup_remove_dups.
  - intros v. rewrite merge_sort_Permutation, elem_of_remove_dups.
    rewrite list_elem_of_In, in_map_iff. split.
    + intros [line [<- Hin]]. exists line. now rewrite list_elem_of_In.
    + intros [line [Hin ->]]. exists line. now rewrite <- list_elem_of_In.
Qed.

(** ** The store of default arguments *)

(** A resolution only appends: every list of the store keeps what it held
    as a prefix, and a list that is not the one of the class or of one of
    its ancestors is left as it is. *)
Theorem default_list_appends (sel : Script.class_body -> option Script.loc)
    (c : Script.pyclass) (h : gmap string (list string)) (x : Script.loc) :
  exists added,
    Script.read (snd (Script.default_list sel c h)) x
    = Script.read h x ++ added
    /\ (~ In x (Notions.lists_of sel c) -> added = []).
Proof.
  revert h. induction c as [| b base IH]; intros h.
  - simpl. unfold bind, Script.iadd_fresh, ret. simpl.
    exists []. rewrite read_extend. split; [| reflexivity].
    case_decide; subst; now rewrite !app_nil_r.
  - destruct (default_list_returns sel base h) as [h1 E].
    rewrite (default_list_sub sel b base h h1 _ E).
    destruct (IH h) as [a1 [Ha Hout]]. rewrite E in Ha. simpl in Ha.
    cbn [snd]. rewrite read_extend. case_decide as Hx.
    + exists (a1 ++ Script.read h1 (Script.getattr sel "" base)).
      subst x. rewrite Ha, app_assoc. split; [reflexivity |].
      intros Hn. exfalso. apply Hn. now left.
    + exists a1. split; [exact Ha |].
      intros Hn. apply Hout. intros Hin. apply Hn. now right.
Qed.

Lemma getattr_unbound (sel : Script.class_body -> option Script.loc)
    (c : Script.pyclass) :
  Notions.unbound sel c ->
  Script.getattr sel "" c = Script.getattr sel "" Script.MakeProject.
Proof.
  induction c as [| b base IH]; [reflexivity |].
  intros [Hb Hu]. simpl. rewrite Hb. now apply IH.
Qed.

Lemma concat_repeat_double {A} (l : list A) (n : nat) :
  concat (repeat l n) ++ concat (repeat l n) = concat (repeat l (2 * n)).
Proof.
  replace (2 * n)%nat with (n + n)%nat by lia.
  now rewrite repeat_app, concat_app.
Qed.

(** Classes that bind no list of their own share the list of
    [MakeProject], and each of them appends that list to itself: one
    resolution for a class [n] levels below [MakeProject] leaves
    [MakeProject]'s list as [2^n] copies of what it was. *)
Theorem default_list_doubles (sel : Script.class_body -> option Script.loc)
    (c : Script.pyclass) (h : gmap string (list string)) :
  Notions.unbound sel c ->
  fst (Script.default_list sel c h)
  = Returned (Script.getattr sel "" Script.MakeProject)
  /\ Script.read (snd (Script.default_list sel c h))
                 (Script.getattr sel "" Script.MakeProject)
     = concat (repeat (Script.read h (Script.getattr sel "" Script.MakeProject))
                      (2 ^ Notions.depth c)).
Proof.
  revert h. induction c as [| b base IH]; intros h Hu.
  - simpl. unfold bind, Script.iadd_fresh, ret. simpl.
    rewrite read_extend, decide_True by reflexivity.
    now rewrite !app_nil_r.
  - destruct Hu as [Hb Hu].
    destruct (default_list_returns sel base h) as [h1 E].
    rewrite (default_list_sub sel b base h h1 _ E).
    destruct (IH h Hu) as [_ Hr]. rewrite E in Hr. cbn [snd] in Hr.
    assert (Hg : Script.getattr sel "" (Script.Subclass b base)
                 = Script.getattr sel "" Script.MakeProject).
    { apply (getattr_unbound sel (Script.Subclass b base)). now split. }
    rewrite Hg, (getattr_unbound sel base Hu). cbn [fst snd].
    split; [reflexivity |].
    rewrite read_extend, decide_True by reflexivity.
    rewrite Hr. cbn [Notions.depth]. rewrite Nat.pow_succ_r'.
    apply concat_repeat_double.
Qed.

Lemma default_list_doubles_witness :
  fst (Script.default_make_args Script.LibGMP Script.loaded)
  = Returned "MakeProject._default_make_args"
  /\ Script.read (snd (Script.default_make_args Script.LibGMP Script.loaded))
                 "MakeProject._default_make_args"
     = ["-j{cpus}"; "-j{cpus}"; "-j{cpus}"; "-j{cpus}"].
Proof.
  apply (default_list_doubles Script._default_make_args Script.LibGMP
           Script.loaded).
  simpl. auto.
Defined.

(** A class directly below [MakeProject] resolves to the same store on
    every call, as long as [MakeProject]'s own list is empty: nothing is
    appended anywhere. *)
Theorem default_list_direct_subclass
    (sel : Script.class_body -> option Script.loc) (b : Script.class_body)
    (h : gmap string (list string)) (x : Script.loc) :
  Script.read h (Script.getattr sel "" Script.MakeProject) = [] ->
  Script.read (snd (Script.default_list sel
                      (Script.Subclass b Script.MakeProject) h)) x
  = Script.read h x.
Proof.
  intros Hroot.
  set (root := Script.getattr sel "" Script.MakeProject) in *.
  assert (E : Script.default_list sel Script.MakeProject h
              = (Returned root, Script.extend root [] h)) by reflexivity.
  rewrite (default_list_sub sel b Script.MakeProject h _ _ E). cbn [snd].
  assert (Hsame : forall y, Script.read (Script.extend root [] h) y
                            = Script.read h y).
  { intros y. rewrite read_extend.
    case_decide; subst; now rewrite ?app_nil_r. }
  rewrite read_extend, !Hsame, Hroot.
  case_decide; subst; now rewrite ?app_nil_r.
Qed.

Lemma default_list_direct_subclass_witness :
  Script.read (snd (Script.default_config Script.Binutils Script.loaded))
              "Binutils._default_config"
  = Script.read Script.loaded "Binutils._default_config".
Proof.
  apply (default_list_direct_subclass Script._default_config).
  reflexivity.
Defined.

(** ** Chains in the script *)

(** In the script a chain never gets past a result: as soon as the left
    operand of [and] returns one, its truth value is asked for, and the
    chain raises [TypeError] without evaluating the right operand. *)
Theorem script_and_raises (a b : M Script.state Ret) (s s' : Script.state)
    (r : Ret) :
  a s = (Returned r, s') -> Script.py_and a b s = (Raised TypeError, s').
Proof. intros Ha. unfold Script.py_and, bind, raise. now rewrite Ha. Qed.

Lemma script_and_raises_witness :
  Script.py_and (Script.pre_config (Script.mkInstance Script.GCC []))
                (Script.post_config (Script.mkInstance Script.GCC []))
                (Inputs.loaded_state Inputs.quiet)
  = (Raised TypeError, Inputs.loaded_state Inputs.quiet).
Proof.
  apply (script_and_raises _ _ _ _
           (mkRet (PyList []) (PyInt 0) (PyList []) (PyList []))).
  reflexivity.
Defined.

(** ** The attributes of a project *)

Lemma dict_get_set (k k' : string) (v : pyval) (d : kwargs) :
  dict_get k' (dict_set k v d)
  = if String.eqb k' k then Some v else dict_get k' d.
Proof.
  induction d as [| [k0 v0] d IH]; simpl.
  - reflexivity.
  - destruct (String.eqb_spec k k0) as [-> | Hne]; simpl.
    + destruct (String.eqb k' k0); reflexivity.
    + rewrite IH. destruct (String.eqb_spec k' k0) as [-> | Hne'].
      * destruct (String.eqb_spec k0 k); [congruence | reflexivity].
      * reflexivity.
Qed.

Lemma dict_get_none (k : string) (d : kwargs) :
  ~ In k (map fst d) -> dict_get k d = None.
Proof.
  induction d as [| [k0 v0] d IH]; simpl; [reflexivity |].
  intros H. destruct (String.eqb_spec k k0) as [-> | Hne]; [tauto |].
  apply IH. tauto.
Qed.

(** Looking a name up in [a | b]: the value of [b] if [b] has the name,
    else the value of [a]. *)
Lemma dict_get_merge (k : string) (b a : kwargs) :
  List.NoDup (map fst b) ->
  dict_get k (dict_merge a b)
  = match dict_get k b with
    | Some v => Some v
    | None => dict_get k a
    end.
Proof.
  unfold dict_merge. revert a.
  induction b as [| [k0 v0] b IH]; intros a Hnd; simpl.
  - reflexivity.
  - inversion Hnd as [| ? ? Hnotin Hnd']; subst.
    rewrite IH by assumption.
    destruct (String.eqb_spec k k0) as [-> | Hne].
    + rewrite (dict_get_none k0 b Hnotin), dict_get_set.
      now rewrite String.eqb_refl.
    + destruct (dict_get k b); [reflexivity |].
      rewrite dict_get_set. now destruct (String.eqb_spec k k0).
Qed.

Lemma assigned_nodup (a : Script.init_args) :
  List.NoDup (map fst (Notions.assigned a)).
Proof.
  simpl. repeat constructor; simpl; intros H;
    repeat (destruct H as [H | H]; [discriminate H |]); exact H.
Qed.

(** Construction stores each of the eleven arguments under its name and
    then every further keyword; a name is looked up in the keywords first,
    then among the eleven, then among the attributes that the initialiser
    of the subclass had set before. *)
Theorem MakeProject_init_attributes (self : Script.instance)
    (a : Script.init_args) (s : Script.state) (k : string) :
  List.NoDup (map fst (Script.more a)) ->
  exists inst,
    Script.MakeProject_init self a s = (Returned inst, s)
    /\ dict_get k (Script.dict inst)
       = match dict_get k (Script.more a) with
         | Some v => Some v
         | None =>
             match dict_get k (Notions.assigned a) with
             | Some v => Some v
             | None => dict_get k (Script.dict self)
             end
         end.
Proof.
  intros Hnd.
  exists (Script.mkInstance (Script.class_of self)
            (dict_merge (dict_merge (Script.dict self) (Notions.assigned a))
                        (Script.more a))).
  split; [reflexivity |]. cbn [Script.dict].
  rewrite dict_get_merge by assumption.
  destruct (dict_get k (Script.more a)); [reflexivity |].
  apply dict_get_merge, assigned_nodup.
Qed.

Lemma MakeProject_init_attributes_witness :
  exists inst,
    Script.MakeProject_init
      (Script.mkInstance Script.GCC [("prefix", PyPath "/opt/x")])
      Inputs.both_options (Inputs.loaded_state Inputs.quiet)
    = (Returned inst, Inputs.loaded_state Inputs.quiet)
    /\ dict_get "cpus" (Script.dict inst) = Some (PyInt 4).
Proof.
  apply (MakeProject_init_attributes
           (Script.mkInstance Script.GCC [("prefix", PyPath "/opt/x")])
           Inputs.both_options (Inputs.loaded_state Inputs.quiet) "cpus").
  constructor.
Defined.

(** ** The directories of a support library *)

Lemma segment_split (n1 n2 v1 v2 : string) :
  ~ In "/"%char (list_ascii_of_string n1) ->
  ~ In "/"%char (list_ascii_of_string n2) ->
  n1 +:+ "/" +:+ v1 = n2 +:+ "/" +:+ v2 -> n1 = n2 /\ v1 = v2.
Proof.
  revert n2. induction n1 as [| x n1 IH]; intros n2 H1 H2 E.
  - destruct n2 as [| y n2].
    + split; [reflexivity |]. now inversion E.
    + exfalso. rewrite str_app_cons in E. inversion E; subst.
      apply H2. now left.
  - destruct n2 as [| y n2].
    + exfalso. rewrite str_app_cons in E. inversion E; subst.
      apply H1. now left.
    + rewrite !str_app_cons in E. inversion E; subst.
      destruct (IH n2) as [-> ->]; auto.
      * intros H. apply H1. now right.
      * intros H. apply H2. now right.
Qed.

Lemma filter_keys_subset (f : string * pyval -> bool) (kw : kwargs)
    (k : string) :
  In k (map fst (List.filter f kw)) -> In k (map fst kw).
Proof.
  rewrite !in_map_iff. intros [kv [<- Hin]].
  apply filter_In in Hin as [Hin _]. eauto.
Qed.

Lemma dict_get_merge_other (k : string) (b a : kwargs) :
  ~ In k (map fst b) -> dict_get k (dict_merge a b) = dict_get k a.
Proof.
  unfold dict_merge. revert a.
  induction b as [| [k0 v0] b IH]; intros a Hn; simpl; [reflexivity |].
  simpl in Hn. rewrite IH by tauto. rewrite dict_get_set.
  destruct (String.eqb_spec k k0) as [-> | Hne]; [| reflexivity].
  exfalso. apply Hn. now left.
Qed.

(** What [ToolchainSupportLib.__init__] leaves in [build_dir] when it
    returns: [/build/<name>/<version>]. *)
Lemma lib_build_dir (self inst : Script.instance) (a : Libs.lib_args)
    (s s' : Script.state) (n v : string) :
  Libs.lib_name a = PyStr n -> Libs.lib_version a = PyStr v ->
  Libs.ToolchainSupportLib_init self a s = (Returned inst, s') ->
  Script.attr inst "build_dir"
  = Returned (PyPath (path_join (path_join "/build" n) v)).
Proof.
  intros Hn Hv H. unfold Libs.ToolchainSupportLib_init in H.
  rewrite Hn, Hv in H. unfold bind, lift in H. cbn [path_div Libs.SOURCE_DIR
    Libs.BUILD_DIR] in H.
  unfold Libs.bind_init in H.
  destruct (existsb _ (map fst (Libs.lib_more a))) eqn:Ex; [discriminate |].
  unfold Script.MakeProject_init, Script._handle_conflicts, bind, ret in H.
  inversion H; subst; clear H.
  unfold Script.attr. cbn [Script.dict Script.more Script.class_of].
  rewrite dict_get_merge_other.
  - unfold Script.setattr. cbn [Script.dict Script.class_of Script.build_dir].
    rewrite !dict_get_set. reflexivity.
  - intros Hin. apply filter_keys_subset in Hin.
    assert (Ht : existsb (fun k => existsb (String.eqb k) Libs.bound_params)
                   (map fst (Libs.lib_more a)) = true).
    { apply existsb_exists. exists "build_dir". split; [exact Hin |].
      reflexivity. }
    congruence.
Qed.

(** Two support libraries that are constructed with plain names and
    versions and have the same build directory have the same name and the
    same version: a build directory belongs to one name and version. *)
Theorem lib_build_dir_injective (self1 self2 inst1 inst2 : Script.instance)
    (a1 a2 : Libs.lib_args) (s1 s2 s1' s2' : Script.state)
    (n1 v1 n2 v2 : string) :
  Libs.lib_name a1 = PyStr n1 -> Libs.lib_version a1 = PyStr v1 ->
  Libs.lib_name a2 = PyStr n2 -> Libs.lib_version a2 = PyStr v2 ->
  Notions.plain_segment n1 -> Notions.plain_segment v1 ->
  Notions.plain_segment n2 -> Notions.plain_segment v2 ->
  Libs.ToolchainSupportLib_init self1 a1 s1 = (Returned inst1, s1') ->
  Libs.ToolchainSupportLib_init self2 a2 s2 = (Returned inst2, s2') ->
  Script.attr inst1 "build_dir" = Script.attr inst2 "build_dir" ->
  n1 = n2 /\ v1 = v2.
Proof.
  intros Hn1 Hv1 Hn2 Hv2 [_ [_ P1]] _ [_ [_ P2]] _ I1 I2 E.
  rewrite (lib_build_dir _ _ _ _ _ _ _ Hn1 Hv1 I1) in E.
  rewrite (lib_build_dir _ _ _ _ _ _ _ Hn2 Hv2 I2) in E.
  assert (E' : path_join (path_join "/build" n1) v1
               = path_join (path_join "/build" n2) v2) by congruence.
  unfold path_join in E'. rewrite !str_app_assoc in E'.
  apply (inj (String.app "/build")) in E'.
  apply (inj (String.app "/")) in E'.
  now apply segment_split.
Qed.

Lemma lib_build_dir_injective_witness :
  Script.attr Samples.gmp_instance "build_dir"
  = Returned (PyPath "/build/gmp/6.3.0")
  /\ "gmp" = "gmp" /\ "6.3.0" = "6.3.0".
Proof.
  split; [reflexivity |].
  apply (lib_build_dir_injective
           (Script.mkInstance Script.LibGMP [])
           (Script.mkInstance Script.LibGMP [])
           Samples.gmp_instance Samples.gmp_instance
           Samples.gmp_args Samples.gmp_args
           (Inputs.loaded_state Inputs.quiet) (Inputs.loaded_state Inputs.quiet)
           (snd Samples.gmp_built) (snd Samples.gmp_built)
           "gmp" "6.3.0" "gmp" "6.3.0");
    try reflexivity;
    try (repeat split; try discriminate; simpl; intros H;
         repeat (destruct H as [H | H]; [discriminate H |]); exact H).
Defined.


